(** * The Book Archive: account store and derived list pages (server.js)

    A shallow embedding of [server.js]: the two JSON record files, the
    register / login / profile handlers and the generated list pages.

    Strings are byte strings (the UTF-8 form in which the server reads and
    writes them).  Library functions the server calls but does not define
    ([String.prototype.toLowerCase], [bcrypt], the [express-validator]
    chains) are fields of a [Platform]; values drawn per request
    ([uuidv4()], the bcrypt salt, [new Date().toLocaleString()], which file
    operations fail) are fields of an [Oracle]. *)

From Stdlib Require Import String Ascii List Bool Arith Lia.
Import ListNotations.
Open Scope string_scope.


(** ** Strings *)

(** The double quote character, and strings built around it. *)
Definition dquote : ascii := "034"%char.
Definition dq : string := String dquote EmptyString.

(** [s.replace(/c/g, r)] for a one-character pattern [c]. *)
Fixpoint replaceAll (c : ascii) (r : string) (s : string) : string :=
  match s with
  | EmptyString => EmptyString
  | String a s' =>
      if Ascii.eqb a c then r ++ replaceAll c r s'
      else String a (replaceAll c r s')
  end.

(** Whether [s] begins with [m]. *)
Fixpoint starts_with (m s : string) : bool :=
  match m with
  | EmptyString => true
  | String a m' =>
      match s with
      | EmptyString => false
      | String b s' => Ascii.eqb a b && starts_with m' s'
      end
  end.

(** Each element followed by, or preceded by, the separator. *)
Fixpoint joinBefore (sep : string) (xs : list string) : string :=
  match xs with
  | [] => ""
  | x :: rest => (x ++ sep) ++ joinBefore sep rest
  end.

Fixpoint joinAfter (sep : string) (xs : list string) : string :=
  match xs with
  | [] => ""
  | x :: rest => (sep ++ x) ++ joinAfter sep rest
  end.

(** [xs.join(sep)] *)
Fixpoint join (sep : string) (xs : list string) : string :=
  match xs with
  | [] => ""
  | [x] => x
  | x :: rest => x ++ sep ++ join sep rest
  end.

(** JS truthiness of a string: only the empty string is falsy. *)
Definition truthy (s : string) : bool := negb (String.eqb s "").

(** [a || b] on strings. *)
Definition or_else (a b : string) : string := if truthy a then a else b.

(** ** escapeHtml (server.js 51-58) *)

Definition escapeHtml (s : string) : string :=
  if negb (truthy s) then ""
  else
    replaceAll dquote "&quot;"
      (replaceAll ">" "&gt;"
         (replaceAll "<" "&lt;"
            (replaceAll "&" "&amp;" s))).

(** What one character becomes after the four passes. *)
Definition escapeChar (c : ascii) : string :=
  if Ascii.eqb c "&" then "&amp;"
  else if Ascii.eqb c "<" then "&lt;"
  else if Ascii.eqb c ">" then "&gt;"
  else if Ascii.eqb c dquote then "&quot;"
  else String c EmptyString.

Fixpoint escapeEach (s : string) : string :=
  match s with
  | EmptyString => EmptyString
  | String c s' => escapeChar c ++ escapeEach s'
  end.

(** A string is safe as HTML text or as a double-quoted attribute value when
    it has no [<], [>] or double quote, and every [&] opens one of the four
    character references the server emits. *)
Fixpoint html_safe (s : string) : bool :=
  match s with
  | EmptyString => true
  | String c s' =>
      if Ascii.eqb c "<" then false
      else if Ascii.eqb c ">" then false
      else if Ascii.eqb c dquote then false
      else if Ascii.eqb c "&" then
        (starts_with "amp;" s' || starts_with "lt;" s'
         || starts_with "gt;" s' || starts_with "quot;" s')
        && html_safe s'
      else html_safe s'
  end.

(** What an HTML parser reads back from such text: the four references
    decoded.  [skip] counts the characters of a reference still to drop. *)
Fixpoint unescapeFrom (skip : nat) (s : string) : string :=
  match s with
  | EmptyString => EmptyString
  | String c s' =>
      match skip with
      | S k => unescapeFrom k s'
      | O =>
          if Ascii.eqb c "&" then
            if starts_with "amp;" s' then String "&" (unescapeFrom 4 s')
            else if starts_with "lt;" s' then String "<" (unescapeFrom 3 s')
            else if starts_with "gt;" s' then String ">" (unescapeFrom 3 s')
            else if starts_with "quot;" s' then String dquote (unescapeFrom 5 s')
            else String c (unescapeFrom 0 s')
          else String c (unescapeFrom 0 s')
      end
  end.

Definition unescapeHtml (s : string) : string := unescapeFrom 0 s.

(** ** Records (server.js 188, 230) *)

Record Librarian := {
  l_id : string;
  l_username : string;
  l_fullname : string;
  l_passwordHash : string
}.

Record Student := {
  s_id : string;
  s_name : string;
  s_grade : string;
  s_section : string;
  s_passHash : string
}.

(** A record read from either file.  A field the record does not have reads
    as [undefined], here [None]. *)
Inductive User :=
| Lib (l : Librarian)
| Stud (s : Student).

Definition user_id (u : User) : string :=
  match u with Lib l => l_id l | Stud s => s_id s end.
Definition user_username (u : User) : option string :=
  match u with Lib l => Some (l_username l) | Stud _ => None end.
Definition user_fullname (u : User) : option string :=
  match u with Lib l => Some (l_fullname l) | Stud _ => None end.
Definition user_name (u : User) : option string :=
  match u with Lib _ => None | Stud s => Some (s_name s) end.
Definition user_grade (u : User) : option string :=
  match u with Lib _ => None | Stud s => Some (s_grade s) end.
Definition user_section (u : User) : option string :=
  match u with Lib _ => None | Stud s => Some (s_section s) end.

(** The object [sanitizeUser] builds: its [role] field is fixed by the
    constructor, and neither shape has a hash field. *)
Inductive Profile :=
| LibrarianProfile (id : string) (username fullname : option string)
| StudentProfile (id : string) (name grade section : option string).

(** sanitizeUser (server.js 44-47) *)
Definition sanitizeUser (user : User) (role : string) : Profile :=
  if String.eqb role "librarian"
  then LibrarianProfile (user_id user) (user_username user) (user_fullname user)
  else StudentProfile (user_id user) (user_name user) (user_grade user)
         (user_section user).

(** ** The list pages (server.js 64-156) *)

Definition nl : string := String "010"%char EmptyString.

Definition ORIGINAL_STUDENT_PAGE : string := "/mnt/data/Therese Student.html".
Definition ORIGINAL_LIBRARIAN_PAGE : string := "/mnt/data/Therese Librarian.html".

Definition studentCard (s : Student) : string :=
  "
    <div class=" ++ dq ++ "card" ++ dq ++ ">
      <h3>" ++ escapeHtml (s_name s) ++ "</h3>
      <p><strong>Grade:</strong> " ++ escapeHtml (s_grade s) ++ "</p>
      <p><strong>Section:</strong> " ++ escapeHtml (s_section s) ++ "</p>
    </div>
  ".

Definition librarianCard (l : Librarian) : string :=
  "
    <div class=" ++ dq ++ "card" ++ dq ++ ">
      <h3>" ++ escapeHtml (or_else (l_fullname l) (l_username l)) ++ "</h3>
      <p><strong>Username:</strong> " ++ escapeHtml (l_username l) ++ "</p>
    </div>
  ".

Definition studentsCardsHtml (students : list Student) : string :=
  join nl (map studentCard students).

Definition librariansCardsHtml (libs : list Librarian) : string :=
  join nl (map librarianCard libs).

(** The page template before and after its [${cardsHtml || ...}] hole. *)
Definition studentsListTop : string :=
  "<!doctype html>
  <html>
  <head>
    <meta charset=" ++ dq ++ "utf-8" ++ dq ++ "/>
    <meta name=" ++ dq ++ "viewport" ++ dq ++ " content=" ++ dq ++ "width=device-width,initial-scale=1" ++ dq ++ "/>
    <title>Students â€” List</title>
    <style>
      @import url('https://fonts.googleapis.com/css2?family=Cinzel+Decorative:wght@700&family=Roboto&display=swap');
      body{font-family:Roboto,Arial,Helvetica,sans-serif;background:#f5deb3;margin:0;padding:24px;color:#3b2f2f}
      header{font-family:'Cinzel Decorative',serif;font-size:28px;margin-bottom:12px}
      .top-links{margin-bottom:18px}
      .top-links a{margin-right:12px;color:#4b2e05;font-weight:600;text-decoration:none}
      .container{display:flex;flex-wrap:wrap;gap:16px}
      .card{background:#fff;padding:16px;border-radius:10px;box-shadow:0 4px 12px rgba(0,0,0,0.08);width:220px}
      .card h3{margin:0 0 6px 0}
      footer{margin-top:28px;color:#666;font-size:13px}
    </style>
  </head>
  <body>
    <header>ðŸ“š Registered Students</header>
    <div class=" ++ dq ++ "top-links" ++ dq ++ ">
      <a href=" ++ dq ++ escapeHtml ORIGINAL_STUDENT_PAGE ++ dq ++ ">Open Student Portal</a>
      <a href=" ++ dq ++ escapeHtml ORIGINAL_LIBRARIAN_PAGE ++ dq ++ ">Open Librarian Portal</a>
      <a href=" ++ dq ++ "/therese-student.html" ++ dq ++ ">Back to Student Portal (public)</a>
      <a href=" ++ dq ++ "/therese-librarian.html" ++ dq ++ ">Back to Librarian Portal (public)</a>
    </div>
    <div class=" ++ dq ++ "container" ++ dq ++ ">
      ".

Definition studentsListBottom (now : string) : string :=
  "
    </div>
    <footer>Generated on " ++ now ++ "</footer>
  </body>
  </html>".

Definition studentsListHtml (cardsHtml now : string) : string :=
  studentsListTop ++ or_else cardsHtml "<p>No student accounts yet.</p>"
  ++ studentsListBottom now.

(** The page template before and after its [${cardsHtml || ...}] hole. *)
Definition librariansListTop : string :=
  "<!doctype html>
  <html>
  <head>
    <meta charset=" ++ dq ++ "utf-8" ++ dq ++ "/>
    <meta name=" ++ dq ++ "viewport" ++ dq ++ " content=" ++ dq ++ "width=device-width,initial-scale=1" ++ dq ++ "/>
    <title>Librarians â€” List</title>
    <style>
      @import url('https://fonts.googleapis.com/css2?family=Cinzel+Decorative:wght@700&family=Roboto&display=swap');
      body{font-family:Roboto,Arial,Helvetica,sans-serif;background:#f5deb3;margin:0;padding:24px;color:#3b2f2f}
      header{font-family:'Cinzel Decorative',serif;font-size:28px;margin-bottom:12px}
      .top-links{margin-bottom:18px}
      .top-links a{margin-right:12px;color:#4b2e05;font-weight:600;text-decoration:none}
      .container{display:flex;flex-wrap:wrap;gap:16px}
      .card{background:#fff;padding:16px;border-radius:10px;box-shadow:0 4px 12px rgba(0,0,0,0.08);width:260px}
      .card h3{margin:0 0 6px 0}
      footer{margin-top:28px;color:#666;font-size:13px}
    </style>
  </head>
  <body>
    <header>ðŸ“– Registered Librarians</header>
    <div class=" ++ dq ++ "top-links" ++ dq ++ ">
      <a href=" ++ dq ++ escapeHtml ORIGINAL_LIBRARIAN_PAGE ++ dq ++ ">Open Librarian Portal</a>
      <a href=" ++ dq ++ escapeHtml ORIGINAL_STUDENT_PAGE ++ dq ++ ">Open Student Portal</a>
      <a href=" ++ dq ++ "/therese-librarian.html" ++ dq ++ ">Back to Librarian Portal (public)</a>
      <a href=" ++ dq ++ "/therese-student.html" ++ dq ++ ">Back to Student Portal (public)</a>
    </div>
    <div class=" ++ dq ++ "container" ++ dq ++ ">
      ".

Definition librariansListBottom (now : string) : string :=
  "
    </div>
    <footer>Generated on " ++ now ++ "</footer>
  </body>
  </html>".

Definition librariansListHtml (cardsHtml now : string) : string :=
  librariansListTop ++ or_else cardsHtml "<p>No librarian accounts yet.</p>"
  ++ librariansListBottom now.

(** The text [generateStudentsListPage] / [generateLibrariansListPage] write. *)
Definition studentsListPage (now : string) (students : list Student) : string :=
  studentsListHtml (studentsCardsHtml students) now.

Definition librariansListPage (now : string) (libs : list Librarian) : string :=
  librariansListHtml (librariansCardsHtml libs) now.

(** The opening tag of a card, and how often a text contains it. *)
Definition cardMarker : string := "<div class=" ++ dq ++ "card" ++ dq ++ ">".

Fixpoint occurrences (m s : string) : nat :=
  match s with
  | EmptyString => 0
  | String _ s' => (if starts_with m s then 1 else 0) + occurrences m s'
  end.

Definition countCards (html : string) : nat := occurrences cardMarker html.

Fixpoint no_lt (s : string) : bool :=
  match s with
  | EmptyString => true
  | String c s' => negb (Ascii.eqb c "<") && no_lt s'
  end.

(** The fields of a record that a page may show. *)
Definition studentPublic (s : Student) : string * string * string :=
  (s_name s, s_grade s, s_section s).
Definition librarianPublic (l : Librarian) : string * string :=
  (l_username l, l_fullname l).

(** ** Library functions and per-request values *)

(** Bodies of the two register requests, as the validation chains let them
    through: every field a string. *)
Record LibrarianBody := {
  username : string;
  fullname : string;
  password : string
}.

Record StudentBody := {
  name : string;
  grade : string;
  section : string;
  passcode : string
}.

(** Bodies of the two login requests.  The login handlers never consult
    [validationResult], so any field may be absent ([None]). *)
Record LibrarianLogin := {
  login_username : option string;
  login_password : option string
}.

Record StudentLogin := {
  login_name : option string;
  login_grade : option string;
  login_section : option string;
  login_passcode : option string
}.

Record Platform := {
  (** [String.prototype.toLowerCase] *)
  toLowerCase : string -> string;
  (** [bcrypt.hash(data, 10)], given the salt it drew *)
  bcrypt_hash : string -> string -> string;
  (** [bcrypt.compare(data, hash)]; [None] when the promise rejects *)
  bcrypt_compare : option string -> string -> option bool;
  (** [validationResult(req).isEmpty()] for the two register chains *)
  librarianBodyValid : LibrarianBody -> bool;
  studentBodyValid : StudentBody -> bool
}.

Inductive file := LIB_FILE | STUD_FILE.
Inductive page := STUDENTS_LIST | LIBRARIANS_LIST.

(** The file-system calls a handler makes. *)
Inductive fsop :=
| EnsureDir
| PathExists (f : file)
| ReadJson (f : file)
| WriteJson (f : file)
| WriteFile (p : page).

Record Oracle := {
  (** which file-system calls fail during this request *)
  fails : fsop -> bool;
  (** [uuidv4()] *)
  uuid : string;
  (** the salt [bcrypt.hash] draws *)
  salt : string;
  (** [new Date().toLocaleString()] in each page generator *)
  now_students : string;
  now_librarians : string
}.

(** ** The files *)

Record World := {
  libFile : option (list Librarian);       (* data/librarians.json *)
  studFile : option (list Student);        (* data/students.json *)
  studentsList : option string;            (* public/lists/students-list.html *)
  librariansList : option string           (* public/lists/librarians-list.html *)
}.

Definition record_of (f : file) : Type :=
  match f with LIB_FILE => Librarian | STUD_FILE => Student end.

Definition as_user (f : file) : record_of f -> User :=
  match f with LIB_FILE => Lib | STUD_FILE => Stud end.

Definition content (f : file) (w : World) : option (list (record_of f)) :=
  match f with LIB_FILE => libFile w | STUD_FILE => studFile w end.

Definition set_content (f : file) : list (record_of f) -> World -> World :=
  match f with
  | LIB_FILE => fun data w =>
      {| libFile := Some data; studFile := studFile w;
         studentsList := studentsList w; librariansList := librariansList w |}
  | STUD_FILE => fun data w =>
      {| libFile := libFile w; studFile := Some data;
         studentsList := studentsList w; librariansList := librariansList w |}
  end.

Definition set_page (p : page) (html : string) (w : World) : World :=
  match p with
  | STUDENTS_LIST =>
      {| libFile := libFile w; studFile := studFile w;
         studentsList := Some html; librariansList := librariansList w |}
  | LIBRARIANS_LIST =>
      {| libFile := libFile w; studFile := studFile w;
         studentsList := studentsList w; librariansList := Some html |}
  end.

(** The sequence a file holds; a file not yet created holds none. *)
Definition stored (f : file) (w : World) : list (record_of f) :=
  match content f w with Some data => data | None => [] end.

(** ** Handlers as state transformers that may reject *)

(** An awaited computation: the files afterwards, and its value, or [None]
    when the promise rejects.  What was written before a rejection stays
    written. *)
Definition IO (A : Type) : Type := World -> World * option A.

Definition ret {A} (a : A) : IO A := fun w => (w, Some a).
Definition reject {A} : IO A := fun w => (w, None).
Definition bind {A B} (m : IO A) (k : A -> IO B) : IO B :=
  fun w => match m w with
           | (w', Some a) => k a w'
           | (w', None) => (w', None)
           end.

Notation "x <- m ;; k" := (bind m (fun x => k))
  (at level 61, m at next level, right associativity).
Notation "m ;; k" := (bind m (fun _ => k))
  (at level 61, right associativity).

Inductive Payload :=
| UserBody (user : Profile)          (* { user: ... } *)
| ErrorBody (error : string)         (* { error: ... } *)
| ErrorsBody.                        (* { errors: errors.array() } *)

Record Response := {
  status : nat;
  payload : Payload
}.

(** [res.json(x)] and [res.status(n).json(x)] *)
Definition json (x : Payload) : Response := {| status := 200; payload := x |}.
Definition status_json (n : nat) (x : Payload) : Response :=
  {| status := n; payload := x |}.

(** The spec's names for the three refusals. *)
Definition DuplicateLibrarian : Response :=
  status_json 409 (ErrorBody "Username already exists").
Definition DuplicateStudent : Response :=
  status_json 409 (ErrorBody "Student account already exists").
Definition InvalidCredentials : Response :=
  status_json 401 (ErrorBody "Invalid credentials").
Definition NotFound : Response :=
  status_json 404 (ErrorBody "Not found").

Section Server.

Variable P : Platform.
Variable o : Oracle.

(** One file-system call: rejects when the oracle says so. *)
Definition fs {A} (op : fsop) (run : IO A) : IO A :=
  fun w => if fails o op then (w, None) else run w.

Definition ensureDir : IO unit := fs EnsureDir (ret tt).

Definition pathExists (f : file) : IO bool :=
  fs (PathExists f)
     (fun w => (w, Some (match content f w with Some _ => true | None => false end))).

(** readJson (server.js 39); a missing file makes it reject. *)
Definition readJson (f : file) : IO (list (record_of f)) :=
  fs (ReadJson f)
     (fun w => (w, content f w)).

(** writeJson (server.js 41) *)
Definition writeJson (f : file) (data : list (record_of f)) : IO unit :=
  fs (WriteJson f) (fun w => (set_content f data w, Some tt)).

Definition writeFile (p : page) (html : string) : IO unit :=
  fs (WriteFile p) (fun w => (set_page p html w, Some tt)).

(** ensureFiles (server.js 31-36) *)
Definition ensureFiles : IO unit :=
  ensureDir ;;
  ensureDir ;;
  lib_exists <- pathExists LIB_FILE ;;
  (if negb lib_exists then writeJson LIB_FILE [] else ret tt) ;;
  stud_exists <- pathExists STUD_FILE ;;
  (if negb stud_exists then writeJson STUD_FILE [] else ret tt).

(** generateStudentsListPage (server.js 64-108) *)
Definition generateStudentsListPage (students : list Student) : IO unit :=
  let cardsHtml := join nl (map studentCard students) in
  let html := studentsListHtml cardsHtml (now_students o) in
  writeFile STUDENTS_LIST html.

(** generateLibrariansListPage (server.js 113-156) *)
Definition generateLibrariansListPage (libs : list Librarian) : IO unit :=
  let cardsHtml := join nl (map librarianCard libs) in
  let html := librariansListHtml cardsHtml (now_librarians o) in
  writeFile LIBRARIANS_LIST html.

(** regenerateListFiles (server.js 159-164) *)
Definition regenerateListFiles : IO unit :=
  students <- readJson STUD_FILE ;;
  libs <- readJson LIB_FILE ;;
  generateStudentsListPage students ;;
  generateLibrariansListPage libs.

(** The callbacks handed to [find]. *)
Definition sameUsername (u : string) (l : Librarian) : bool :=
  String.eqb (toLowerCase P (l_username l)) (toLowerCase P u).

Definition sameStudent (n g sec : string) (s : Student) : bool :=
  String.eqb (toLowerCase P (s_name s)) (toLowerCase P n)
  && String.eqb (s_grade s) g
  && String.eqb (toLowerCase P (s_section s)) (toLowerCase P sec).

(** POST /api/librarian/register (server.js 177-196) *)
Definition librarian_register (b : LibrarianBody) : IO Response :=
  ensureFiles ;;
  if negb (librarianBodyValid P b) then ret (status_json 400 ErrorsBody) else
  libs <- readJson LIB_FILE ;;
  match find (sameUsername (username b)) libs with
  | Some _ => ret (status_json 409 (ErrorBody "Username already exists"))
  | None =>
      let hash := bcrypt_hash P (salt o) (password b) in
      let user := {| l_id := uuid o; l_username := username b;
                     l_fullname := fullname b; l_passwordHash := hash |} in
      let libs := (libs ++ [user])%list in
      writeJson LIB_FILE libs ;;
      regenerateListFiles ;;
      ret (json (UserBody (sanitizeUser (Lib user) "librarian")))
  end.

(** POST /api/librarian/login (server.js 202-211) *)
Definition librarian_login (b : LibrarianLogin) : IO Response :=
  ensureFiles ;;
  libs <- readJson LIB_FILE ;;
  let key := or_else (match login_username b with Some u => u | None => "" end) "" in
  match find (sameUsername key) libs with
  | None => ret (status_json 401 (ErrorBody "Invalid credentials"))
  | Some user =>
      match bcrypt_compare P (login_password b) (l_passwordHash user) with
      | None => reject
      | Some ok =>
          if negb ok then ret (status_json 401 (ErrorBody "Invalid credentials"))
          else ret (json (UserBody (sanitizeUser (Lib user) "librarian")))
      end
  end.

(** POST /api/student/register (server.js 219-238) *)
Definition student_register (b : StudentBody) : IO Response :=
  ensureFiles ;;
  if negb (studentBodyValid P b) then ret (status_json 400 ErrorsBody) else
  studs <- readJson STUD_FILE ;;
  match find (sameStudent (name b) (grade b) (section b)) studs with
  | Some _ => ret (status_json 409 (ErrorBody "Student account already exists"))
  | None =>
      let hash := bcrypt_hash P (salt o) (passcode b) in
      let user := {| s_id := uuid o; s_name := name b; s_grade := grade b;
                     s_section := section b; s_passHash := hash |} in
      let studs := (studs ++ [user])%list in
      writeJson STUD_FILE studs ;;
      regenerateListFiles ;;
      ret (json (UserBody (sanitizeUser (Stud user) "student")))
  end.

(** The callback of the student login's [find]: [s.grade === grade] is
    false when the request carries no grade. *)
Definition sameStudentLogin (b : StudentLogin) (s : Student) : bool :=
  String.eqb (toLowerCase P (s_name s))
    (toLowerCase P (or_else (match login_name b with Some n => n | None => "" end) ""))
  && match login_grade b with
     | Some g => String.eqb (s_grade s) g
     | None => false
     end
  && String.eqb (toLowerCase P (s_section s))
       (toLowerCase P (or_else (match login_section b with Some x => x | None => "" end) "")).

(** POST /api/student/login (server.js 245-256) *)
Definition student_login (b : StudentLogin) : IO Response :=
  ensureFiles ;;
  studs <- readJson STUD_FILE ;;
  match find (sameStudentLogin b) studs with
  | None => ret (status_json 401 (ErrorBody "Invalid credentials"))
  | Some user =>
      let checked : IO bool :=
        match login_passcode b with
        | Some pc =>
            if truthy pc then
              match bcrypt_compare P (Some pc) (s_passHash user) with
              | None => reject
              | Some ok => ret ok
              end
            else ret true
        | None => ret true
        end in
      ok <- checked ;;
      if negb ok then ret (status_json 401 (ErrorBody "Invalid credentials"))
      else ret (json (UserBody (sanitizeUser (Stud user) "student")))
  end.

(** GET /api/profile/:role/:id (server.js 259-267) *)
Definition profile (role id : string) : IO Response :=
  ensureFiles ;;
  let f := if String.eqb role "librarian" then LIB_FILE else STUD_FILE in
  list <- readJson f ;;
  match find (fun u => String.eqb (user_id u) id) (map (as_user f) list) with
  | None => ret (status_json 404 (ErrorBody "Not found"))
  | Some user => ret (json (UserBody (sanitizeUser user role)))
  end.

End Server.

(** ** A concrete platform for examples *)

Definition lowerChar (c : ascii) : ascii :=
  let n := nat_of_ascii c in
  if (Nat.leb 65 n) && (Nat.leb n 90) then ascii_of_nat (n + 32) else c.

Fixpoint lowerAscii (s : string) : string :=
  match s with
  | EmptyString => EmptyString
  | String c s' => String (lowerChar c) (lowerAscii s')
  end.

(** A stand-in for bcrypt: the digest is the salt, a [$], and the data read
    backwards; comparing recomputes it with the digest's own salt. *)
Fixpoint rev_string (acc s : string) : string :=
  match s with
  | EmptyString => acc
  | String c s' => rev_string (String c acc) s'
  end.

Definition demo_hash (salt data : string) : string :=
  salt ++ "$" ++ rev_string "" data.

Fixpoint after_dollar (s : string) : string :=
  match s with
  | EmptyString => EmptyString
  | String c s' => if Ascii.eqb c "$" then s' else after_dollar s'
  end.

Definition demo_compare (data : option string) (digest : string) : option bool :=
  match data with
  | None => None
  | Some d => Some (String.eqb (after_dollar digest) (rev_string "" d))
  end.

Definition demoPlatform : Platform :=
  {| toLowerCase := lowerAscii;
     bcrypt_hash := demo_hash;
     bcrypt_compare := demo_compare;
     librarianBodyValid := fun b =>
       (Nat.leb 3 (String.length (username b))) && (Nat.leb 3 (String.length (fullname b)))
       && (Nat.leb 8 (String.length (password b)));
     studentBodyValid := fun b =>
       (Nat.leb 3 (String.length (name b))) && (Nat.leb 1 (String.length (grade b)))
       && (Nat.leb 1 (String.length (section b))) && (Nat.leb 4 (String.length (passcode b))) |}.

Definition no_faults (o : Oracle) : Prop := forall op, fails o op = false.

Definition calmOracle (id : string) : Oracle :=
  {| fails := fun _ => false; uuid := id; salt := "s4lt";
     now_students := "11/3/2026, 10:15:00 AM";
     now_librarians := "11/3/2026, 10:15:01 AM" |}.

(** An oracle under which writing the students page fails. *)
Definition renderFailsOracle (id : string) : Oracle :=
  {| fails := fun op => match op with WriteFile STUDENTS_LIST => true | _ => false end;
     uuid := id; salt := "s4lt";
     now_students := "11/3/2026, 10:15:00 AM";
     now_librarians := "11/3/2026, 10:15:01 AM" |}.

Definition freshWorld : World :=
  {| libFile := None; studFile := None; studentsList := None; librariansList := None |}.

Definition alice : Librarian :=
  {| l_id := "id-1"; l_username := "alice"; l_fullname := "Alice A";
     l_passwordHash := demo_hash "s4lt" "Secret123" |}.

Definition bob : Student :=
  {| s_id := "id-2"; s_name := "Bob Cruz"; s_grade := "10A"; s_section := "Rizal";
     s_passHash := demo_hash "s4lt" "1234" |}.

Definition aliceWorld : World :=
  {| libFile := Some [alice]; studFile := Some [bob];
     studentsList := None; librariansList := None |}.

Arguments studentsListHtml : simpl never.
Arguments librariansListHtml : simpl never.
Arguments studentsListPage : simpl never.
Arguments librariansListPage : simpl never.
Arguments studentCard : simpl never.
Arguments librarianCard : simpl never.

(** ** Store invariants and derived notions *)

(** The files after a registration that ran to its end: the new record
    appended to its file, and both pages rendered from the files. *)
Definition afterLibrarian (o : Oracle) (w : World) (new : Librarian) : World :=
  {| libFile := Some (stored LIB_FILE w ++ [new])%list;
     studFile := Some (stored STUD_FILE w);
     studentsList :=
       Some (studentsListPage (now_students o) (stored STUD_FILE w));
     librariansList :=
       Some (librariansListPage (now_librarians o) (stored LIB_FILE w ++ [new])%list) |}.

Definition afterStudent (o : Oracle) (w : World) (new : Student) : World :=
  {| libFile := Some (stored LIB_FILE w);
     studFile := Some (stored STUD_FILE w ++ [new])%list;
     studentsList :=
       Some (studentsListPage (now_students o) (stored STUD_FILE w ++ [new])%list);
     librariansList :=
       Some (librariansListPage (now_librarians o) (stored LIB_FILE w)) |}.

(** The file-system calls that touch the record files, as opposed to the
    two page writes. *)
Definition store_ok (o : Oracle) : Prop :=
  fails o EnsureDir = false
  /\ (forall f, fails o (PathExists f) = false)
  /\ (forall f, fails o (ReadJson f) = false)
  /\ (forall f, fails o (WriteJson f) = false).

Definition render_fails (o : Oracle) : Prop :=
  fails o (WriteFile STUDENTS_LIST) = true
  \/ fails o (WriteFile LIBRARIANS_LIST) = true.


(** The files once [ensureFiles] has run to its end: both exist, each with
    the sequence it held. *)
Definition ensured (w : World) : World :=
  {| libFile := Some (stored LIB_FILE w); studFile := Some (stored STUD_FILE w);
     studentsList := studentsList w; librariansList := librariansList w |}.

(** Spec section 3, invariants 2 and 3: the uniqueness keys of the stored
    records are pairwise distinct. *)
Definition librarianKey (P : Platform) (l : Librarian) : string :=
  toLowerCase P (l_username l).

Definition studentKey (P : Platform) (s : Student) : string * string * string :=
  (toLowerCase P (s_name s), s_grade s, toLowerCase P (s_section s)).

Definition usernames_distinct (P : Platform) (libs : list Librarian) : Prop :=
  NoDup (map (librarianKey P) libs).

Definition students_distinct (P : Platform) (studs : list Student) : Prop :=
  NoDup (map (studentKey P) studs).

(** What a login request gives for an absent field: [x || ''] reads it as
    the empty string. *)
Definition given (x : option string) : string :=
  match x with Some s => s | None => "" end.

(** The [id] field of a sanitized profile. *)
Definition profile_id (p : Profile) : string :=
  match p with
  | LibrarianProfile id _ _ => id
  | StudentProfile id _ _ _ => id
  end.

(** The sanitized forms of the two kinds of record. *)
Definition librarianProfile (l : Librarian) : Profile :=
  LibrarianProfile (l_id l) (Some (l_username l)) (Some (l_fullname l)).

Definition studentProfile (s : Student) : Profile :=
  StudentProfile (s_id s) (Some (s_name s)) (Some (s_grade s)) (Some (s_section s)).

(** The ids a file holds. *)
Definition ids (f : file) (w : World) : list string :=
  map (fun r => user_id (as_user f r)) (stored f w).

(** The records the two successful registrations append. *)
Definition newLibrarian (P : Platform) (o : Oracle) (b : LibrarianBody) : Librarian :=
  {| l_id := uuid o; l_username := username b; l_fullname := fullname b;
     l_passwordHash := bcrypt_hash P (salt o) (password b) |}.

Definition newStudent (P : Platform) (o : Oracle) (b : StudentBody) : Student :=
  {| s_id := uuid o; s_name := name b; s_grade := grade b; s_section := section b;
     s_passHash := bcrypt_hash P (salt o) (passcode b) |}.

(** ** Requests used in the examples *)


Definition registerCarol : LibrarianBody :=
  {| username := "carol"; fullname := "Carol C"; password := "Passw0rd9" |}.

Definition registerBOB : StudentBody :=
  {| name := "BOB CRUZ"; grade := "10A"; section := "rizal"; passcode := "1234" |}.

Definition registerBob10a : StudentBody :=
  {| name := "Bob Cruz"; grade := "10a"; section := "Rizal"; passcode := "1234" |}.

Definition loginAlice (pw : string) : LibrarianLogin :=
  {| login_username := Some "Alice"; login_password := Some pw |}.

Definition loginNobody : LibrarianLogin :=
  {| login_username := Some "nobody"; login_password := Some "Secret123" |}.

Definition loginBob (pc : option string) : StudentLogin :=
  {| login_name := Some "bob cruz"; login_grade := Some "10A";
     login_section := Some "RIZAL"; login_passcode := pc |}.

(** ** Further notions *)

(** The four characters [escapeHtml] rewrites. *)
Definition special (c : ascii) : bool :=
  Ascii.eqb c "&" || Ascii.eqb c "<" || Ascii.eqb c ">" || Ascii.eqb c dquote.

(** A text with none of them. *)
Fixpoint plain (s : string) : bool :=
  match s with
  | EmptyString => true
  | String c s' => negb (special c) && plain s'
  end.

(** How often a character occurs in a text. *)
Fixpoint count_char (c : ascii) (s : string) : nat :=
  match s with
  | EmptyString => 0
  | String a s' => (if Ascii.eqb a c then 1 else 0) + count_char c s'
  end.

(** The characters that delimit tags and attribute values. *)
Definition structural (c : ascii) : bool :=
  Ascii.eqb c "<" || Ascii.eqb c ">" || Ascii.eqb c dquote.

(** What the two pages show in place of cards (server.js 101, 149). *)
Definition studentsPlaceholder : string := "<p>No student accounts yet.</p>".
Definition librariansPlaceholder : string := "<p>No librarian accounts yet.</p>".


(** The routes that touch the files (server.js 171, 199, 214, 241, 259),
    and a run of requests served one after another, each with the values it
    draws. *)
Inductive Request :=
| PostLibrarianRegister (b : LibrarianBody)
| PostLibrarianLogin (b : LibrarianLogin)
| PostStudentRegister (b : StudentBody)
| PostStudentLogin (b : StudentLogin)
| GetProfile (role id : string).

Definition handle (P : Platform) (o : Oracle) (req : Request) : IO Response :=
  match req with
  | PostLibrarianRegister b => librarian_register P o b
  | PostLibrarianLogin b => librarian_login P o b
  | PostStudentRegister b => student_register P o b
  | PostStudentLogin b => student_login P o b
  | GetProfile role id => profile o role id
  end.

Fixpoint serve (P : Platform) (reqs : list (Oracle * Request)) (w : World) : World :=
  match reqs with
  | [] => w
  | (o, req) :: rest => serve P rest (fst (handle P o req w))
  end.

(** An oracle under which only the write of the librarians page fails. *)
Definition librariansPageFailsOracle (id : string) : Oracle :=
  {| fails := fun op => match op with WriteFile LIBRARIANS_LIST => true | _ => false end;
     uuid := id; salt := "s4lt";
     now_students := "11/3/2026, 10:15:00 AM";
     now_librarians := "11/3/2026, 10:15:01 AM" |}.

(** An oracle under which every file-system call fails. *)
Definition stormOracle : Oracle :=
  {| fails := fun _ => true; uuid := "id-0"; salt := "s4lt";
     now_students := "-"; now_librarians := "-" |}.

(** A request that does not pass validation, though its username is taken. *)
Definition registerAliceWeak : LibrarianBody :=
  {| username := "alice"; fullname := "Al"; password := "short" |}.

Definition registerBobWeak : StudentBody :=
  {| name := "Bob Cruz"; grade := "10A"; section := "Rizal"; passcode := "12" |}.

(** A student whose name is markup. *)
Definition mallory : Student :=
  {| s_id := "id-6"; s_name := "<script>alert(1)</script>"; s_grade := "9";
     s_section := "<b>"; s_passHash := demo_hash "s4lt" "0000" |}.

(** Two states of the files with the same stored sequences and the same
    pages. *)
Definition unchanged (w w' : World) : Prop :=
  stored LIB_FILE w' = stored LIB_FILE w
  /\ stored STUD_FILE w' = stored STUD_FILE w
  /\ studentsList w' = studentsList w
  /\ librariansList w' = librariansList w.

(** A student login that carries no grade. *)
Definition loginBobNoGrade : StudentLogin :=
  {| login_name := Some "Bob Cruz"; login_grade := None;
     login_section := Some "Rizal"; login_passcode := Some "1234" |}.

(** Five requests in a row: carol registers, registers again in capitals,
    logs in, bob's namesake registers with another grade, and someone asks
    for a profile under an unknown role. *)
Definition demoTrace : list (Oracle * Request) :=
  [ (calmOracle "id-3", PostLibrarianRegister registerCarol);
    (calmOracle "id-5",
     PostLibrarianRegister
       {| username := "CAROL"; fullname := "Carol Again"; password := "Passw0rd9" |});
    (calmOracle "-",
     PostLibrarianLogin
       {| login_username := Some "Carol"; login_password := Some "Passw0rd9" |});
    (renderFailsOracle "id-4", PostStudentRegister registerBob10a);
    (calmOracle "-", GetProfile "admin" "id-4") ].

(** The two card templates (server.js 66-72, 115-120) around their
    interpolations: each hole is the text of an [h3] or [p] element. *)
Definition studentCardAround (n g sec : string) : string :=
  "
    <div class=" ++ dq ++ "card" ++ dq ++ ">
      <h3>" ++ n ++ "</h3>
      <p><strong>Grade:</strong> " ++ g ++ "</p>
      <p><strong>Section:</strong> " ++ sec ++ "</p>
    </div>
  ".

Definition librarianCardAround (heading u : string) : string :=
  "
    <div class=" ++ dq ++ "card" ++ dq ++ ">
      <h3>" ++ heading ++ "</h3>
      <p><strong>Username:</strong> " ++ u ++ "</p>
    </div>
  ".

(** ** Character escaping *)

Lemma string_app_assoc (a b c : string) : (a ++ b) ++ c = a ++ (b ++ c).
Proof. induction a as [|x a IH]; simpl; [reflexivity | now rewrite IH]. Qed.

Lemma string_app_nil_r (a : string) : a ++ "" = a.
Proof. induction a as [|x a IH]; simpl; [reflexivity | now rewrite IH]. Qed.

Lemma replaceAll_app c r s t :
  replaceAll c r (s ++ t) = replaceAll c r s ++ replaceAll c r t.
Proof.
  induction s as [|a s IH]; simpl; [reflexivity|].
  destruct (Ascii.eqb a c); rewrite IH.
  - now rewrite string_app_assoc.
  - reflexivity.
Qed.

Lemma escapeChar_passes (a : ascii) :
  replaceAll dquote "&quot;"
    (replaceAll ">" "&gt;" (replaceAll "<" "&lt;" (replaceAll "&" "&amp;" (String a ""))))
  = escapeChar a.
Proof.
  unfold escapeChar. cbn [replaceAll].
  destruct (Ascii.eqb a "&") eqn:E1; [reflexivity|].
  cbn [replaceAll].
  destruct (Ascii.eqb a "<") eqn:E2; [reflexivity|].
  cbn [replaceAll].
  destruct (Ascii.eqb a ">") eqn:E3; [reflexivity|].
  cbn [replaceAll].
  destruct (Ascii.eqb a dquote) eqn:E4; reflexivity.
Qed.

(** The four passes amount to one pass that rewrites each character. *)
Lemma escape_passes_each (s : string) :
  replaceAll dquote "&quot;"
    (replaceAll ">" "&gt;" (replaceAll "<" "&lt;" (replaceAll "&" "&amp;" s)))
  = escapeEach s.
Proof.
  induction s as [|a s IH]; [reflexivity|].
  change (String a s) with (String a "" ++ s).
  rewrite !replaceAll_app, IH, escapeChar_passes. reflexivity.
Qed.

Lemma escapeHtml_each (s : string) : escapeHtml s = escapeEach s.
Proof.
  unfold escapeHtml, truthy. destruct s as [|a s]; [reflexivity|].
  cbn [String.eqb negb]. apply escape_passes_each.
Qed.

Lemma html_safe_escapeChar (a : ascii) (t : string) :
  html_safe (escapeChar a ++ t) = html_safe t.
Proof.
  unfold escapeChar.
  destruct (Ascii.eqb a "&") eqn:E1; [reflexivity|].
  destruct (Ascii.eqb a "<") eqn:E2; [reflexivity|].
  destruct (Ascii.eqb a ">") eqn:E3; [reflexivity|].
  destruct (Ascii.eqb a dquote) eqn:E4; [reflexivity|].
  cbn [String.append html_safe]. now rewrite E1, E2, E3, E4.
Qed.

Lemma unescape_escapeChar (a : ascii) (t : string) :
  unescapeFrom 0 (escapeChar a ++ t) = String a (unescapeFrom 0 t).
Proof.
  unfold escapeChar.
  destruct (Ascii.eqb a "&") eqn:E1.
  { apply Ascii.eqb_eq in E1. subst a. reflexivity. }
  destruct (Ascii.eqb a "<") eqn:E2.
  { apply Ascii.eqb_eq in E2. subst a. reflexivity. }
  destruct (Ascii.eqb a ">") eqn:E3.
  { apply Ascii.eqb_eq in E3. subst a. reflexivity. }
  destruct (Ascii.eqb a dquote) eqn:E4.
  { apply Ascii.eqb_eq in E4. subst a. reflexivity. }
  cbn [String.append unescapeFrom]. now rewrite E1.
Qed.

Lemma escapeHtml_is_safe (s : string) : html_safe (escapeHtml s) = true.
Proof.
  rewrite escapeHtml_each.
  induction s as [|a s IH]; [reflexivity|].
  cbn [escapeEach]. now rewrite html_safe_escapeChar.
Qed.

Example escapeHtml_markup :
  escapeHtml "<b>Tom & Jerry</b>" = "&lt;b&gt;Tom &amp; Jerry&lt;/b&gt;".
Proof. reflexivity. Qed.

Example escapeHtml_quotes :
  escapeHtml ("say " ++ dq ++ "hi" ++ dq ++ " to O'Neil")
  = "say &quot;hi&quot; to O'Neil".
Proof. reflexivity. Qed.

Example escapeHtml_already_escaped : escapeHtml "&lt;" = "&amp;lt;".
Proof. reflexivity. Qed.

Example join_three : join ", " ["a"; "b"; "c"] = "a, b, c".
Proof. reflexivity. Qed.

(** ** Counting cards in a page *)

Lemma html_safe_no_lt (s : string) : html_safe s = true -> no_lt s = true.
Proof.
  induction s as [|c s IH]; [reflexivity|].
  cbn [html_safe no_lt].
  destruct (Ascii.eqb c "<"); [discriminate|].
  destruct (Ascii.eqb c ">"); [discriminate|].
  destruct (Ascii.eqb c dquote); [discriminate|].
  destruct (Ascii.eqb c "&"); cbn [negb andb]; [|exact IH].
  intros H. apply andb_true_iff in H. now apply IH.
Qed.

Lemma escapeHtml_no_lt (s : string) : no_lt (escapeHtml s) = true.
Proof. apply html_safe_no_lt, escapeHtml_is_safe. Qed.

Lemma occurrences_skip (x t : string) :
  no_lt x = true -> occurrences cardMarker (x ++ t) = occurrences cardMarker t.
Proof.
  induction x as [|c x IH]; [reflexivity|].
  cbn [no_lt]. intros H. apply andb_true_iff in H. destruct H as [Hc Hx].
  cbn [String.append occurrences]. rewrite (IH Hx).
  unfold cardMarker, dq. cbn [String.append starts_with].
  rewrite Ascii.eqb_sym.
  destruct (Ascii.eqb c "<"); [discriminate | reflexivity].
Qed.

(** Flatten a text to right-nested appends, count through its literal
    parts by computation and skip each escaped field. *)
Ltac count_cards :=
  unfold countCards;
  repeat rewrite string_app_assoc;
  repeat first
    [ rewrite occurrences_skip by (first [apply escapeHtml_no_lt | assumption])
    | progress cbn [occurrences starts_with String.append cardMarker dq dquote
                    Ascii.eqb Bool.eqb andb Nat.add] ].

Lemma countCards_studentCard (s : Student) (t : string) :
  countCards (studentCard s ++ t) = S (countCards t).
Proof. unfold studentCard. count_cards. reflexivity. Qed.

Lemma countCards_librarianCard (l : Librarian) (t : string) :
  countCards (librarianCard l ++ t) = S (countCards t).
Proof. unfold librarianCard. count_cards. reflexivity. Qed.

Lemma countCards_nl (t : string) : countCards (nl ++ t) = countCards t.
Proof. reflexivity. Qed.

Lemma countCards_studentsListTop (t : string) :
  countCards (studentsListTop ++ t) = countCards t.
Proof.
  unfold studentsListTop.
  change (escapeHtml ORIGINAL_STUDENT_PAGE) with ORIGINAL_STUDENT_PAGE.
  change (escapeHtml ORIGINAL_LIBRARIAN_PAGE) with ORIGINAL_LIBRARIAN_PAGE.
  unfold ORIGINAL_STUDENT_PAGE, ORIGINAL_LIBRARIAN_PAGE.
  count_cards. reflexivity.
Qed.

Lemma countCards_librariansListTop (t : string) :
  countCards (librariansListTop ++ t) = countCards t.
Proof.
  unfold librariansListTop.
  change (escapeHtml ORIGINAL_STUDENT_PAGE) with ORIGINAL_STUDENT_PAGE.
  change (escapeHtml ORIGINAL_LIBRARIAN_PAGE) with ORIGINAL_LIBRARIAN_PAGE.
  unfold ORIGINAL_STUDENT_PAGE, ORIGINAL_LIBRARIAN_PAGE.
  count_cards. reflexivity.
Qed.

Lemma countCards_studentsListBottom (now : string) :
  no_lt now = true -> countCards (studentsListBottom now) = 0.
Proof. intros H. unfold studentsListBottom. count_cards. reflexivity. Qed.

Lemma countCards_librariansListBottom (now : string) :
  no_lt now = true -> countCards (librariansListBottom now) = 0.
Proof. intros H. unfold librariansListBottom. count_cards. reflexivity. Qed.

Lemma join_cons_after (sep x : string) (ys : list string) :
  join sep (x :: ys) = x ++ joinAfter sep ys.
Proof.
  revert x. induction ys as [|y ys IH]; intros x.
  - simpl. now rewrite string_app_nil_r.
  - change (join sep (x :: y :: ys)) with (x ++ sep ++ join sep (y :: ys)).
    rewrite IH. cbn [joinAfter]. now rewrite string_app_assoc.
Qed.

Lemma join_split (sep x : string) (xs ys : list string) :
  join sep (xs ++ x :: ys) = joinBefore sep xs ++ x ++ joinAfter sep ys.
Proof.
  induction xs as [|a xs IH].
  - apply join_cons_after.
  - destruct xs as [|b xs].
    + cbn [app joinBefore]. cbn [app joinBefore] in IH.
      change (join sep (a :: x :: ys)) with (a ++ sep ++ join sep (x :: ys)).
      rewrite IH. cbn [String.append]. now rewrite !string_app_assoc.
    + change (join sep ((a :: b :: xs) ++ x :: ys))
        with (a ++ sep ++ join sep ((b :: xs) ++ x :: ys)).
      rewrite IH. cbn [joinBefore]. now rewrite !string_app_assoc.
Qed.

Section Cards.

Context {A : Type}.
Variable card : A -> string.
Hypothesis card_counts_one :
  forall a t, countCards (card a ++ t) = S (countCards t).

Lemma countCards_joinAfter (l : list A) (t : string) :
  countCards (joinAfter nl (map card l) ++ t) = length l + countCards t.
Proof.
  induction l as [|a l IH]; [reflexivity|].
  cbn [map joinAfter length]. rewrite !string_app_assoc.
  now rewrite countCards_nl, card_counts_one, IH.
Qed.

Lemma countCards_joinBefore (l : list A) (t : string) :
  countCards (joinBefore nl (map card l) ++ t) = length l + countCards t.
Proof.
  induction l as [|a l IH]; [reflexivity|].
  cbn [map joinBefore length]. rewrite !string_app_assoc.
  now rewrite card_counts_one, countCards_nl, IH.
Qed.

Lemma countCards_join (l : list A) (t : string) :
  countCards (join nl (map card l) ++ t) = length l + countCards t.
Proof.
  destruct l as [|a l]; [reflexivity|].
  cbn [map]. rewrite join_cons_after, string_app_assoc.
  now rewrite card_counts_one, countCards_joinAfter.
Qed.

Hypothesis card_truthy : forall a t, truthy (card a ++ t) = true.

Lemma cards_truthy (a : A) (l : list A) :
  or_else (join nl (map card (a :: l))) = fun _ => join nl (map card (a :: l)).
Proof.
  unfold or_else. cbn [map]. rewrite join_cons_after, card_truthy. reflexivity.
Qed.

End Cards.

Lemma studentCard_truthy (s : Student) (t : string) : truthy (studentCard s ++ t) = true.
Proof. reflexivity. Qed.

Lemma librarianCard_truthy (l : Librarian) (t : string) :
  truthy (librarianCard l ++ t) = true.
Proof. reflexivity. Qed.

Lemma map_public_studentCard (l l' : list Student) :
  map studentPublic l = map studentPublic l' -> map studentCard l = map studentCard l'.
Proof.
  revert l'. induction l as [|a l IH]; intros [|b l'] H; try discriminate; [reflexivity|].
  cbn [map] in *. injection H as Hn Hg Hs Hl. rewrite (IH _ Hl). f_equal.
  unfold studentCard. now rewrite Hn, Hg, Hs.
Qed.

Lemma map_public_librarianCard (l l' : list Librarian) :
  map librarianPublic l = map librarianPublic l' ->
  map librarianCard l = map librarianCard l'.
Proof.
  revert l'. induction l as [|a l IH]; intros [|b l'] H; try discriminate; [reflexivity|].
  cbn [map] in *. injection H as Hu Hf Hl. rewrite (IH _ Hl). f_equal.
  unfold librarianCard. now rewrite Hu, Hf.
Qed.

Lemma studentsListPage_count (now : string) (students : list Student) :
  no_lt now = true -> countCards (studentsListPage now students) = length students.
Proof.
  intros Hnow. unfold studentsListPage, studentsListHtml, studentsCardsHtml.
  rewrite countCards_studentsListTop.
  destruct students as [|a l].
  - cbn [map join or_else truthy String.eqb negb length].
    unfold studentsListBottom. count_cards. reflexivity.
  - rewrite (cards_truthy studentCard studentCard_truthy).
    rewrite (countCards_join studentCard countCards_studentCard).
    rewrite countCards_studentsListBottom by assumption. lia.
Qed.

Lemma librariansListPage_count (now : string) (libs : list Librarian) :
  no_lt now = true -> countCards (librariansListPage now libs) = length libs.
Proof.
  intros Hnow. unfold librariansListPage, librariansListHtml, librariansCardsHtml.
  rewrite countCards_librariansListTop.
  destruct libs as [|a l].
  - cbn [map join or_else truthy String.eqb negb length].
    unfold librariansListBottom. count_cards. reflexivity.
  - rewrite (cards_truthy librarianCard librarianCard_truthy).
    rewrite (countCards_join librarianCard countCards_librarianCard).
    rewrite countCards_librariansListBottom by assumption. lia.
Qed.

Lemma studentsListPage_nth (now : string) (l1 l2 : list Student) (s : Student) :
  no_lt now = true ->
  exists pre post,
    studentsListPage now (l1 ++ s :: l2) = pre ++ studentCard s ++ post
    /\ countCards pre = length l1 /\ countCards post = length l2.
Proof.
  intros Hnow.
  exists (studentsListTop ++ joinBefore nl (map studentCard l1)),
         (joinAfter nl (map studentCard l2) ++ studentsListBottom now).
  split; [|split].
  - unfold studentsListPage, studentsListHtml, studentsCardsHtml.
    replace (or_else (join nl (map studentCard (l1 ++ s :: l2))))
      with (fun _ : string => join nl (map studentCard (l1 ++ s :: l2))).
    + rewrite map_app. cbn [map]. rewrite join_split.
      now rewrite !string_app_assoc.
    + destruct l1 as [|a l1]; symmetry;
        apply (cards_truthy studentCard studentCard_truthy).
  - rewrite countCards_studentsListTop.
    rewrite <- (string_app_nil_r (joinBefore _ _)).
    rewrite (countCards_joinBefore studentCard countCards_studentCard).
    cbn. lia.
  - rewrite (countCards_joinAfter studentCard countCards_studentCard).
    rewrite countCards_studentsListBottom by assumption. lia.
Qed.

Lemma librariansListPage_nth (now : string) (l1 l2 : list Librarian) (l : Librarian) :
  no_lt now = true ->
  exists pre post,
    librariansListPage now (l1 ++ l :: l2) = pre ++ librarianCard l ++ post
    /\ countCards pre = length l1 /\ countCards post = length l2.
Proof.
  intros Hnow.
  exists (librariansListTop ++ joinBefore nl (map librarianCard l1)),
         (joinAfter nl (map librarianCard l2) ++ librariansListBottom now).
  split; [|split].
  - unfold librariansListPage, librariansListHtml, librariansCardsHtml.
    replace (or_else (join nl (map librarianCard (l1 ++ l :: l2))))
      with (fun _ : string => join nl (map librarianCard (l1 ++ l :: l2))).
    + rewrite map_app. cbn [map]. rewrite join_split.
      now rewrite !string_app_assoc.
    + destruct l1 as [|a l1]; symmetry;
        apply (cards_truthy librarianCard librarianCard_truthy).
  - rewrite countCards_librariansListTop.
    rewrite <- (string_app_nil_r (joinBefore _ _)).
    rewrite (countCards_joinBefore librarianCard countCards_librarianCard).
    cbn. lia.
  - rewrite (countCards_joinAfter librarianCard countCards_librarianCard).
    rewrite countCards_librariansListBottom by assumption. lia.
Qed.

(** ** The handlers *)

Section ServerFacts.

Variable P : Platform.
Variable o : Oracle.

Lemma bind_some {A B} {m : IO A} (k : A -> IO B) {w w1 a} :
  m w = (w1, Some a) -> bind m k w = k a w1.
Proof. intros H. unfold bind. now rewrite H. Qed.

Lemma bind_none {A B} {m : IO A} (k : A -> IO B) {w w1} :
  m w = (w1, None) -> bind m k w = (w1, None).
Proof. intros H. unfold bind. now rewrite H. Qed.

Lemma fs_ok {A} {op : fsop} (run : IO A) w :
  fails o op = false -> fs o op run w = run w.
Proof. intros H. unfold fs. now rewrite H. Qed.

(** [ensureFiles] keeps every stored sequence and both pages, whether or
    not it runs to its end; when it does, both files exist. *)
Lemma ensureFiles_cases (w : World) :
  (exists w1, ensureFiles o w = (w1, None)
              /\ stored LIB_FILE w1 = stored LIB_FILE w
              /\ stored STUD_FILE w1 = stored STUD_FILE w
              /\ (forall x, libFile w = Some x -> libFile w1 = Some x)
              /\ (forall x, studFile w = Some x -> studFile w1 = Some x)
              /\ studentsList w1 = studentsList w
              /\ librariansList w1 = librariansList w)
  \/ ensureFiles o w = (ensured w, Some tt).
Proof.
  unfold ensureFiles, ensureDir, pathExists, writeJson, bind, fs, ret, ensured, stored.
  destruct w as [lf sf sl ll]. cbn [content libFile studFile].
  destruct (fails o EnsureDir); [left; eexists; repeat split; eauto|].
  destruct (fails o (PathExists LIB_FILE)); [left; eexists; repeat split; eauto|].
  destruct lf as [libs|]; cbn [negb set_content libFile studFile studentsList librariansList].
  - destruct (fails o (PathExists STUD_FILE)); [left; eexists; repeat split; eauto|].
    destruct sf as [studs|]; cbn [negb set_content libFile studFile studentsList librariansList].
    + now right.
    + destruct (fails o (WriteJson STUD_FILE)); [left; eexists; repeat split; eauto|].
      now right.
  - destruct (fails o (WriteJson LIB_FILE));
      [left; eexists; repeat split; eauto; discriminate|].
    cbn [content libFile studFile].
    destruct (fails o (PathExists STUD_FILE));
      [left; eexists; repeat split; eauto; discriminate|].
    destruct sf as [studs|]; cbn [negb set_content libFile studFile studentsList librariansList].
    + now right.
    + destruct (fails o (WriteJson STUD_FILE));
        [left; eexists; repeat split; eauto; discriminate|].
      now right.
Qed.

Lemma ensureFiles_no_faults (w : World) :
  no_faults o -> ensureFiles o w = (ensured w, Some tt).
Proof.
  intros H. destruct (ensureFiles_cases w) as [(w1 & E & _)|E]; [|exact E].
  exfalso. revert E.
  unfold ensureFiles, ensureDir, pathExists, writeJson, bind, fs, ret.
  rewrite !H. destruct (content LIB_FILE w), (content STUD_FILE w);
    cbn [negb]; rewrite ?H; cbn; rewrite ?H;
    repeat (match goal with |- context [match ?x with _ => _ end] => destruct x end);
    discriminate.
Qed.

Lemma stored_same_content (f : file) (w w' : World) :
content f w' = content f w -> stored f w' = stored f w.
Proof. intros H. unfold stored. now rewrite H. Qed.

Lemma stored_ensured (f : file) (w : World) : stored f (ensured w) = stored f w.
Proof. destruct f; reflexivity. Qed.

Lemma content_ensured (f : file) (w : World) :
  content f (ensured w) = Some (stored f w).
Proof. destruct f; reflexivity. Qed.

Lemma find_first {A} (p : A -> bool) (l : list A) (a : A) :
  In a l -> p a = true -> exists x, find p l = Some x /\ In x l /\ p x = true.
Proof.
  induction l as [|y l IH]; [contradiction|].
  intros Hin Hp. cbn [find]. destruct (p y) eqn:Ey.
  - exists y. repeat split; [now left | exact Ey].
  - destruct Hin as [->|Hin]; [congruence|].
    destruct (IH Hin Hp) as (x & E & Hx & Px).
    exists x. repeat split; [exact E | now right | exact Px].
Qed.

Lemma find_nobody {A} (p : A -> bool) (l : list A) :
  (forall a, In a l -> p a = false) -> find p l = None.
Proof.
  induction l as [|y l IH]; [reflexivity|].
  intros H. cbn [find]. rewrite (H y (or_introl eq_refl)).
  apply IH. intros a Ha. apply H. now right.
Qed.

(** With pairwise distinct keys, [find] on a key returns the one record
    that has it. *)
Lemma find_the_one {A K} (key : A -> K) (p : A -> bool) (l : list A) (a : A) :
  NoDup (map key l) ->
  (forall x y, p x = true -> p y = true -> key x = key y) ->
  In a l -> p a = true -> find p l = Some a.
Proof.
  intros Hnd Hkey Hin Hp.
  destruct (find_first p l a Hin Hp) as (x & E & Hx & Px).
  rewrite E. f_equal.
  assert (Hk : key x = key a) by now apply Hkey.
  clear E Hkey Hp Px. induction l as [|y l IH]; [contradiction|].
  cbn [map] in Hnd. inversion Hnd as [|k ks Hnotin Hnd']; subst.
  destruct Hx as [->|Hx], Hin as [->|Hin]; try reflexivity.
  - exfalso. apply Hnotin. rewrite Hk. now apply in_map.
  - exfalso. apply Hnotin. rewrite <- Hk. now apply in_map.
  - now apply IH.
Qed.

(** [regenerateListFiles] never touches the two record files; when it
    runs to its end, both pages hold the rendering of the current files. *)
Lemma regenerateListFiles_run (w : World) :
  let r := regenerateListFiles o w in
  libFile (fst r) = libFile w /\ studFile (fst r) = studFile w
  /\ (snd r = Some tt ->
      fails o (WriteFile STUDENTS_LIST) = false
      /\ fails o (WriteFile LIBRARIANS_LIST) = false
      /\ studentsList (fst r)
         = Some (studentsListPage (now_students o) (stored STUD_FILE w))
      /\ librariansList (fst r)
         = Some (librariansListPage (now_librarians o) (stored LIB_FILE w)))
  /\ (snd r = None ->
      (studentsList (fst r) = studentsList w
       \/ studentsList (fst r)
          = Some (studentsListPage (now_students o) (stored STUD_FILE w)))
      /\ librariansList (fst r) = librariansList w).
Proof.
  unfold regenerateListFiles, generateStudentsListPage, generateLibrariansListPage,
    readJson, writeFile, bind, fs, stored.
  destruct w as [lf sf sl ll]. cbn [content libFile studFile].
  destruct (fails o (ReadJson STUD_FILE)); cbn [fst snd libFile studFile studentsList librariansList set_page]; [intuition discriminate|].
  destruct sf as [studs|]; cbn [fst snd libFile studFile studentsList librariansList set_page]; [|intuition discriminate].
  destruct (fails o (ReadJson LIB_FILE)); cbn [fst snd libFile studFile studentsList librariansList set_page]; [intuition discriminate|].
  destruct lf as [libs|]; cbn [fst snd libFile studFile studentsList librariansList set_page]; [|intuition discriminate].
  destruct (fails o (WriteFile STUDENTS_LIST)); cbn [fst snd libFile studFile studentsList librariansList set_page]; [intuition discriminate|].
  destruct (fails o (WriteFile LIBRARIANS_LIST)); cbn [fst snd libFile studFile studentsList librariansList set_page]; [intuition discriminate|].
  repeat split; intros; try discriminate; reflexivity.
Qed.

Lemma regenerateListFiles_fails (w : World) :
  fails o (WriteFile STUDENTS_LIST) = true \/ fails o (WriteFile LIBRARIANS_LIST) = true ->
  snd (regenerateListFiles o w) = None.
Proof.
  intros H. destruct (regenerateListFiles_run w) as (_ & _ & Hok & _).
  destruct (snd (regenerateListFiles o w)) as [[]|]; [|reflexivity].
  destruct (Hok eq_refl) as (H1 & H2 & _). destruct H; congruence.
Qed.

Lemma ensureFiles_store_ok (w : World) :
  store_ok o -> ensureFiles o w = (ensured w, Some tt).
Proof.
  intros (Hd & He & _ & Hw).
  unfold ensureFiles, ensureDir, pathExists, writeJson, bind, fs, ret, ensured, stored.
  rewrite Hd, !He, !Hw. destruct w as [[libs|] [studs|] sl ll]; reflexivity.
Qed.

Lemma then_respond (m : IO unit) (resp : Response) (w : World) :
  (m ;; ret resp) w
  = (fst (m w), match snd (m w) with Some _ => Some resp | None => None end).
Proof. unfold bind, ret. destruct (m w) as [w' [[]|]]; reflexivity. Qed.

(** What [regenerateListFiles] leaves behind when it runs to its end. *)
Lemma regenerateListFiles_done (w w' : World) :
  regenerateListFiles o w = (w', Some tt) ->
  w' = {| libFile := libFile w; studFile := studFile w;
          studentsList :=
            Some (studentsListPage (now_students o) (stored STUD_FILE w));
          librariansList :=
            Some (librariansListPage (now_librarians o) (stored LIB_FILE w)) |}.
Proof.
  intros E. pose proof (regenerateListFiles_run w) as H. cbv zeta in H.
  rewrite E in H. cbn [fst snd] in H. destruct H as (Hl & Hs & Hok & _).
  destruct (Hok eq_refl) as (_ & _ & Hsp & Hlp).
  destruct w' as [lf sf sl ll]. cbn in *. congruence.
Qed.

Lemma regenerateListFiles_no_render_faults (w : World) :
  fails o (ReadJson STUD_FILE) = false -> fails o (ReadJson LIB_FILE) = false ->
  fails o (WriteFile STUDENTS_LIST) = false ->
  fails o (WriteFile LIBRARIANS_LIST) = false ->
  libFile w <> None -> studFile w <> None ->
  snd (regenerateListFiles o w) = Some tt.
Proof.
  intros H1 H2 H3 H4 Hl Hs.
  unfold regenerateListFiles, generateStudentsListPage, generateLibrariansListPage,
    readJson, writeFile, bind, fs.
  rewrite H1. cbn [content].
  destruct (studFile w) as [studs|] eqn:Es; [|congruence].
  rewrite H2. cbn [content].
  destruct (libFile w) as [libs|] eqn:El; [|congruence].
  rewrite H3, H4. reflexivity.
Qed.

(** *** Librarian registration *)

(** The handler once [ensureFiles] and validation are behind it and no
    stored username collides: write, regenerate, respond. *)
Lemma librarian_register_tail (b : LibrarianBody) (w : World) :
  ensureFiles o w = (ensured w, Some tt) ->
  librarianBodyValid P b = true ->
  fails o (ReadJson LIB_FILE) = false ->
  fails o (WriteJson LIB_FILE) = false ->
  find (sameUsername P (username b)) (stored LIB_FILE w) = None ->
  librarian_register P o b w
  = let w2 := set_content LIB_FILE (stored LIB_FILE w ++ [newLibrarian P o b])%list
                (ensured w) in
    (fst (regenerateListFiles o w2),
     match snd (regenerateListFiles o w2) with
     | Some _ => Some (json (UserBody (sanitizeUser (Lib (newLibrarian P o b)) "librarian")))
     | None => None
     end).
Proof.
  intros E Hv Hr Hw Hf. unfold librarian_register.
  rewrite (bind_some _ E), Hv. cbn [negb].
  unfold bind at 1, readJson. rewrite (fs_ok _ _ Hr), content_ensured, Hf.
  unfold bind at 1, writeJson. rewrite (fs_ok _ _ Hw).
  rewrite then_respond. reflexivity.
Qed.

(** A 200 answer means every step ran: this is where it leaves the files. *)
Lemma librarian_register_success (b : LibrarianBody) (w : World) (u : Profile) :
  snd (librarian_register P o b w) = Some (json (UserBody u)) ->
  u = sanitizeUser (Lib (newLibrarian P o b)) "librarian"
  /\ fst (librarian_register P o b w) = afterLibrarian o w (newLibrarian P o b)
  /\ find (sameUsername P (username b)) (stored LIB_FILE w) = None.
Proof.
  intros H.
  destruct (ensureFiles_cases w) as [(w1 & E & _)|E].
  { unfold librarian_register in H. rewrite (bind_none _ E) in H. discriminate. }
  destruct (librarianBodyValid P b) eqn:Hv.
  2:{ unfold librarian_register in H. rewrite (bind_some _ E), Hv in H.
      discriminate. }
  destruct (fails o (ReadJson LIB_FILE)) eqn:Hr.
  { unfold librarian_register in H. rewrite (bind_some _ E), Hv in H.
    cbn [negb] in H. unfold bind at 1, readJson, fs in H. rewrite Hr in H.
    discriminate. }
  destruct (find (sameUsername P (username b)) (stored LIB_FILE w)) eqn:Hf.
  { unfold librarian_register in H. rewrite (bind_some _ E), Hv in H.
    cbn [negb] in H. unfold bind at 1, readJson in H.
    rewrite (fs_ok _ _ Hr), content_ensured, Hf in H. discriminate. }
  destruct (fails o (WriteJson LIB_FILE)) eqn:Hw.
  { unfold librarian_register in H. rewrite (bind_some _ E), Hv in H.
    cbn [negb] in H. unfold bind at 1, readJson in H.
    rewrite (fs_ok _ _ Hr), content_ensured, Hf in H.
    unfold bind at 1, writeJson, fs in H. rewrite Hw in H. discriminate. }
  rewrite (librarian_register_tail b w E Hv Hr Hw Hf) in *. cbv zeta in *.
  cbn [fst snd] in *.
  destruct (regenerateListFiles o _) as [w3 [[]|]] eqn:R; [|discriminate].
  cbn [fst snd] in *. unfold json in H.
  split; [congruence|]. split; [|reflexivity].
  rewrite (regenerateListFiles_done _ _ R). reflexivity.
Qed.

(** *** Student registration *)

(** The handler once [ensureFiles] and validation are behind it and no
    stored student collides: write, regenerate, respond. *)
Lemma student_register_tail (b : StudentBody) (w : World) :
  ensureFiles o w = (ensured w, Some tt) ->
  studentBodyValid P b = true ->
  fails o (ReadJson STUD_FILE) = false ->
  fails o (WriteJson STUD_FILE) = false ->
  find (sameStudent P (name b) (grade b) (section b)) (stored STUD_FILE w) = None ->
  student_register P o b w
  = let w2 := set_content STUD_FILE (stored STUD_FILE w ++ [newStudent P o b])%list
                (ensured w) in
    (fst (regenerateListFiles o w2),
     match snd (regenerateListFiles o w2) with
     | Some _ => Some (json (UserBody (sanitizeUser (Stud (newStudent P o b)) "student")))
     | None => None
     end).
Proof.
  intros E Hv Hr Hw Hf. unfold student_register.
  rewrite (bind_some _ E), Hv. cbn [negb].
  unfold bind at 1, readJson. rewrite (fs_ok _ _ Hr), content_ensured, Hf.
  unfold bind at 1, writeJson. rewrite (fs_ok _ _ Hw).
  rewrite then_respond. reflexivity.
Qed.

(** A 200 answer means every step ran: this is where it leaves the files. *)
Lemma student_register_success (b : StudentBody) (w : World) (u : Profile) :
  snd (student_register P o b w) = Some (json (UserBody u)) ->
  u = sanitizeUser (Stud (newStudent P o b)) "student"
  /\ fst (student_register P o b w) = afterStudent o w (newStudent P o b)
  /\ find (sameStudent P (name b) (grade b) (section b)) (stored STUD_FILE w) = None.
Proof.
  intros H.
  destruct (ensureFiles_cases w) as [(w1 & E & _)|E].
  { unfold student_register in H. rewrite (bind_none _ E) in H. discriminate. }
  destruct (studentBodyValid P b) eqn:Hv.
  2:{ unfold student_register in H. rewrite (bind_some _ E), Hv in H.
      discriminate. }
  destruct (fails o (ReadJson STUD_FILE)) eqn:Hr.
  { unfold student_register in H. rewrite (bind_some _ E), Hv in H.
    cbn [negb] in H. unfold bind at 1, readJson, fs in H. rewrite Hr in H.
    discriminate. }
  destruct (find (sameStudent P (name b) (grade b) (section b)) (stored STUD_FILE w)) eqn:Hf.
  { unfold student_register in H. rewrite (bind_some _ E), Hv in H.
    cbn [negb] in H. unfold bind at 1, readJson in H.
    rewrite (fs_ok _ _ Hr), content_ensured, Hf in H. discriminate. }
  destruct (fails o (WriteJson STUD_FILE)) eqn:Hw.
  { unfold student_register in H. rewrite (bind_some _ E), Hv in H.
    cbn [negb] in H. unfold bind at 1, readJson in H.
    rewrite (fs_ok _ _ Hr), content_ensured, Hf in H.
    unfold bind at 1, writeJson, fs in H. rewrite Hw in H. discriminate. }
  rewrite (student_register_tail b w E Hv Hr Hw Hf) in *. cbv zeta in *.
  cbn [fst snd] in *.
  destruct (regenerateListFiles o _) as [w3 [[]|]] eqn:R; [|discriminate].
  cbn [fst snd] in *. unfold json in H.
  split; [congruence|]. split; [|reflexivity].
  rewrite (regenerateListFiles_done _ _ R). reflexivity.
Qed.

(** *** Registration: the uniqueness check *)

Lemma no_faults_store_ok : no_faults o -> store_ok o.
Proof. intros H. repeat split; intros; apply H. Qed.


(** A registration that finds a colliding record leaves the files as
    [ensureFiles] left them, whatever fails. *)
Lemma librarian_register_collision_files (b : LibrarianBody) (w : World) (x : Librarian) :
  find (sameUsername P (username b)) (stored LIB_FILE w) = Some x ->
  ensureFiles o w = (ensured w, Some tt) ->
  fst (librarian_register P o b w) = ensured w.
Proof.
  intros Hfind E. unfold librarian_register. rewrite (bind_some _ E).
  destruct (librarianBodyValid P b); cbn [negb]; [|reflexivity].
  unfold bind at 1, readJson, fs.
  destruct (fails o (ReadJson LIB_FILE)); [reflexivity|].
  rewrite content_ensured, Hfind. reflexivity.
Qed.

Lemma librarian_register_collision (b : LibrarianBody) (w : World) (r : Librarian) :
  In r (stored LIB_FILE w) -> sameUsername P (username b) r = true ->
  (stored LIB_FILE (fst (librarian_register P o b w)) = stored LIB_FILE w
   /\ stored STUD_FILE (fst (librarian_register P o b w)) = stored STUD_FILE w
   /\ (forall x, libFile w = Some x -> libFile (fst (librarian_register P o b w)) = Some x)
   /\ studentsList (fst (librarian_register P o b w)) = studentsList w
   /\ librariansList (fst (librarian_register P o b w)) = librariansList w)
  /\ (librarianBodyValid P b = true -> no_faults o ->
      snd (librarian_register P o b w) = Some DuplicateLibrarian).
Proof.
  intros Hin Hsame.
  destruct (find_first _ _ _ Hin Hsame) as (x & Hfind & _).
  split.
  - destruct (ensureFiles_cases w) as [(w1 & E & H1 & H2 & H3 & _ & H4 & H5)|E].
    + unfold librarian_register. rewrite (bind_none _ E). cbn [fst]. auto.
    + rewrite (librarian_register_collision_files b w x Hfind E).
      rewrite !stored_ensured. repeat split.
      intros y Hy. unfold ensured, stored. cbn [content libFile]. now rewrite Hy.
  - intros Hv Hnf. unfold librarian_register.
    rewrite (bind_some _ (ensureFiles_no_faults w Hnf)), Hv. cbn [negb].
    unfold bind at 1, readJson. rewrite (fs_ok _ _ (Hnf _)), content_ensured, Hfind.
    reflexivity.
Qed.

Lemma student_register_collision_files (b : StudentBody) (w : World) (x : Student) :
  find (sameStudent P (name b) (grade b) (section b)) (stored STUD_FILE w) = Some x ->
  ensureFiles o w = (ensured w, Some tt) ->
  fst (student_register P o b w) = ensured w.
Proof.
  intros Hfind E. unfold student_register. rewrite (bind_some _ E).
  destruct (studentBodyValid P b); cbn [negb]; [|reflexivity].
  unfold bind at 1, readJson, fs.
  destruct (fails o (ReadJson STUD_FILE)); [reflexivity|].
  rewrite content_ensured, Hfind. reflexivity.
Qed.

Lemma student_register_collision (b : StudentBody) (w : World) (r : Student) :
  In r (stored STUD_FILE w) -> sameStudent P (name b) (grade b) (section b) r = true ->
  (stored LIB_FILE (fst (student_register P o b w)) = stored LIB_FILE w
   /\ stored STUD_FILE (fst (student_register P o b w)) = stored STUD_FILE w
   /\ (forall x, studFile w = Some x -> studFile (fst (student_register P o b w)) = Some x)
   /\ studentsList (fst (student_register P o b w)) = studentsList w
   /\ librariansList (fst (student_register P o b w)) = librariansList w)
  /\ (studentBodyValid P b = true -> no_faults o ->
      snd (student_register P o b w) = Some DuplicateStudent).
Proof.
  intros Hin Hsame.
  destruct (find_first _ _ _ Hin Hsame) as (x & Hfind & _).
  split.
  - destruct (ensureFiles_cases w) as [(w1 & E & H1 & H2 & _ & H3 & H4 & H5)|E].
    + unfold student_register. rewrite (bind_none _ E). cbn [fst]. auto.
    + rewrite (student_register_collision_files b w x Hfind E).
      rewrite !stored_ensured. repeat split.
      intros y Hy. unfold ensured, stored. cbn [content studFile]. now rewrite Hy.
  - intros Hv Hnf. unfold student_register.
    rewrite (bind_some _ (ensureFiles_no_faults w Hnf)), Hv. cbn [negb].
    unfold bind at 1, readJson. rewrite (fs_ok _ _ (Hnf _)), content_ensured, Hfind.
    reflexivity.
Qed.

(** A registration with nothing failing and no collision. *)
Lemma librarian_register_ok (b : LibrarianBody) (w : World) :
  no_faults o -> librarianBodyValid P b = true ->
  find (sameUsername P (username b)) (stored LIB_FILE w) = None ->
  librarian_register P o b w
  = (afterLibrarian o w (newLibrarian P o b),
     Some (json (UserBody (sanitizeUser (Lib (newLibrarian P o b)) "librarian")))).
Proof.
  intros Hnf Hv Hf.
  rewrite (librarian_register_tail b w (ensureFiles_no_faults w Hnf) Hv (Hnf _) (Hnf _) Hf).
  cbv zeta.
  pose proof (regenerateListFiles_no_render_faults
                (set_content LIB_FILE (stored LIB_FILE w ++ [newLibrarian P o b])%list
                   (ensured w))
                (Hnf _) (Hnf _) (Hnf _) (Hnf _)) as Hok.
  destruct (regenerateListFiles o _) as [w3 r] eqn:R. cbn [fst snd] in *.
  rewrite Hok by (cbn; discriminate).
  rewrite Hok in R by (cbn; discriminate).
  now rewrite (regenerateListFiles_done _ _ R).
Qed.

Lemma student_register_ok (b : StudentBody) (w : World) :
  no_faults o -> studentBodyValid P b = true ->
  find (sameStudent P (name b) (grade b) (section b)) (stored STUD_FILE w) = None ->
  student_register P o b w
  = (afterStudent o w (newStudent P o b),
     Some (json (UserBody (sanitizeUser (Stud (newStudent P o b)) "student")))).
Proof.
  intros Hnf Hv Hf.
  rewrite (student_register_tail b w (ensureFiles_no_faults w Hnf) Hv (Hnf _) (Hnf _) Hf).
  cbv zeta.
  pose proof (regenerateListFiles_no_render_faults
                (set_content STUD_FILE (stored STUD_FILE w ++ [newStudent P o b])%list
                   (ensured w))
                (Hnf _) (Hnf _) (Hnf _) (Hnf _)) as Hok.
  destruct (regenerateListFiles o _) as [w3 r] eqn:R. cbn [fst snd] in *.
  rewrite Hok by (cbn; discriminate).
  rewrite Hok in R by (cbn; discriminate).
  now rewrite (regenerateListFiles_done _ _ R).
Qed.


(** C2: the student comparator reads name and section up to case and
    grade exactly.  A valid registration, with no file-system call
    failing, is refused with 409 "Student account already exists" when a
    stored student has the same name and section up to case and the very
    same grade; it succeeds, appending the new record, when every stored
    student with that name and section (up to case) has a different grade
    string, be it only a different case. *)
Theorem student_register_comparator (b : StudentBody) (w : World) :
  studentBodyValid P b = true -> no_faults o ->
  (forall s, In s (stored STUD_FILE w) ->
     toLowerCase P (s_name s) = toLowerCase P (name b) ->
     s_grade s = grade b ->
     toLowerCase P (s_section s) = toLowerCase P (section b) ->
     snd (student_register P o b w) = Some DuplicateStudent
     /\ stored STUD_FILE (fst (student_register P o b w)) = stored STUD_FILE w)
  /\ ((forall s, In s (stored STUD_FILE w) ->
         toLowerCase P (s_name s) = toLowerCase P (name b) ->
         toLowerCase P (s_section s) = toLowerCase P (section b) ->
         s_grade s <> grade b) ->
      snd (student_register P o b w)
      = Some (json (UserBody (StudentProfile (uuid o) (Some (name b))
                                (Some (grade b)) (Some (section b)))))
      /\ stored STUD_FILE (fst (student_register P o b w))
         = (stored STUD_FILE w ++ [newStudent P o b])%list).
Proof.
  intros Hv Hnf. split.
  - intros s Hin Hn Hg Hs.
    assert (Hsame : sameStudent P (name b) (grade b) (section b) s = true).
    { unfold sameStudent. rewrite Hn, Hg, Hs, !String.eqb_refl. reflexivity. }
    destruct (student_register_collision b w s Hin Hsame)
      as ((_ & Hl & _) & Hresp).
    split; [now apply Hresp | exact Hl].
  - intros Hdiff.
    rewrite student_register_ok; [split; reflexivity | assumption | assumption |].
    apply find_nobody. intros s Hin. unfold sameStudent.
    destruct (String.eqb_spec (toLowerCase P (s_name s)) (toLowerCase P (name b)))
      as [Hn|]; [|reflexivity].
    destruct (String.eqb_spec (toLowerCase P (s_section s)) (toLowerCase P (section b)))
      as [Hs|]; [|now rewrite andb_false_r].
    destruct (String.eqb_spec (s_grade s) (grade b)) as [Hg|]; [|reflexivity].
    now destruct (Hdiff s Hin Hn Hs).
Qed.

(** *** Login *)

Lemma or_else_empty (s : string) : or_else s "" = s.
Proof. unfold or_else, truthy. now destruct s. Qed.

Lemma librarian_login_no_faults (b : LibrarianLogin) (w : World) :
  no_faults o ->
  snd (librarian_login P o b w)
  = match find (sameUsername P (given (login_username b))) (stored LIB_FILE w) with
    | None => Some InvalidCredentials
    | Some user =>
        match bcrypt_compare P (login_password b) (l_passwordHash user) with
        | None => None
        | Some true => Some (json (UserBody (librarianProfile user)))
        | Some false => Some InvalidCredentials
        end
    end.
Proof.
  intros Hnf. unfold librarian_login.
  rewrite (bind_some _ (ensureFiles_no_faults w Hnf)).
  unfold bind at 1, readJson. rewrite (fs_ok _ _ (Hnf _)), content_ensured.
  fold (given (login_username b)). rewrite or_else_empty.
  destruct (find _ _) as [user|]; [|reflexivity].
  destruct (bcrypt_compare P _ _) as [[|]|]; reflexivity.
Qed.

(** C3: with no file-system call failing and the stored usernames
    pairwise distinct up to case, a librarian login whose username equals
    a stored record's up to case returns that record, sanitized, when
    bcrypt accepts the password, and 401 "Invalid credentials" when bcrypt
    refuses it; a login whose username matches no stored record gets the
    very same 401 response. *)
Theorem librarian_login_outcomes (b : LibrarianLogin) (w : World) :
  no_faults o ->
  usernames_distinct P (stored LIB_FILE w) ->
  (forall u, In u (stored LIB_FILE w) ->
     toLowerCase P (l_username u) = toLowerCase P (given (login_username b)) ->
     (bcrypt_compare P (login_password b) (l_passwordHash u) = Some true ->
      snd (librarian_login P o b w)
      = Some (json (UserBody (LibrarianProfile (l_id u) (Some (l_username u))
                                (Some (l_fullname u))))))
     /\ (bcrypt_compare P (login_password b) (l_passwordHash u) = Some false ->
         snd (librarian_login P o b w) = Some InvalidCredentials))
  /\ ((forall u, In u (stored LIB_FILE w) ->
         toLowerCase P (l_username u) <> toLowerCase P (given (login_username b))) ->
      snd (librarian_login P o b w) = Some InvalidCredentials).
Proof.
  intros Hnf Hdistinct. rewrite (librarian_login_no_faults b w Hnf). split.
  - intros u Hin Hkey.
    assert (Hfind : find (sameUsername P (given (login_username b)))
                      (stored LIB_FILE w) = Some u).
    { apply (find_the_one (librarianKey P)); auto.
      - unfold sameUsername, librarianKey. intros x y Hx Hy.
        apply String.eqb_eq in Hx, Hy. congruence.
      - unfold sameUsername. rewrite Hkey. apply String.eqb_refl. }
    rewrite Hfind. split; intros ->; reflexivity.
  - intros Hnone. rewrite find_nobody; [reflexivity|].
    intros u Hin. unfold sameUsername. apply String.eqb_neq. now apply Hnone.
Qed.

Lemma student_login_no_faults (b : StudentLogin) (w : World) :
  no_faults o ->
  snd (student_login P o b w)
  = match find (sameStudentLogin P b) (stored STUD_FILE w) with
    | None => Some InvalidCredentials
    | Some user =>
        match login_passcode b with
        | None => Some (json (UserBody (studentProfile user)))
        | Some pc =>
            if String.eqb pc "" then Some (json (UserBody (studentProfile user)))
            else match bcrypt_compare P (Some pc) (s_passHash user) with
                 | None => None
                 | Some true => Some (json (UserBody (studentProfile user)))
                 | Some false => Some InvalidCredentials
                 end
        end
    end.
Proof.
  intros Hnf. unfold student_login.
  rewrite (bind_some _ (ensureFiles_no_faults w Hnf)).
  unfold bind at 1, readJson. rewrite (fs_ok _ _ (Hnf _)), content_ensured.
  destruct (find _ _) as [user|]; [|reflexivity].
  destruct (login_passcode b) as [pc|]; [|reflexivity].
  unfold truthy. destruct (String.eqb pc ""); cbn [negb]; [reflexivity|].
  destruct (bcrypt_compare P _ _) as [[|]|]; reflexivity.
Qed.

(** C5 (as the code has it): with no file-system call failing and the
    stored students pairwise distinct on their key, a student login that
    matches a stored record and carries no passcode, or an empty one, gets
    that record back whatever bcrypt would say; one that carries a
    non-empty passcode gets the record when bcrypt accepts it and 401
    "Invalid credentials" when bcrypt refuses it. *)
Theorem student_login_passcode (b : StudentLogin) (w : World) (s : Student) :
  no_faults o ->
  students_distinct P (stored STUD_FILE w) ->
  In s (stored STUD_FILE w) ->
  sameStudentLogin P b s = true ->
  (login_passcode b = None \/ login_passcode b = Some "" ->
   snd (student_login P o b w)
   = Some (json (UserBody (StudentProfile (s_id s) (Some (s_name s))
                             (Some (s_grade s)) (Some (s_section s))))))
  /\ (forall pc, login_passcode b = Some pc -> pc <> "" ->
      (bcrypt_compare P (Some pc) (s_passHash s) = Some false ->
       snd (student_login P o b w) = Some InvalidCredentials)
      /\ (bcrypt_compare P (Some pc) (s_passHash s) = Some true ->
          snd (student_login P o b w)
          = Some (json (UserBody (StudentProfile (s_id s) (Some (s_name s))
                                    (Some (s_grade s)) (Some (s_section s))))))).
Proof.
  intros Hnf Hdistinct Hin Hsame. rewrite (student_login_no_faults b w Hnf).
  assert (Hfind : find (sameStudentLogin P b) (stored STUD_FILE w) = Some s).
  { apply (find_the_one (studentKey P)); auto.
    unfold sameStudentLogin, studentKey. intros x y Hx Hy.
    destruct (login_grade b) as [g|];
      [|rewrite andb_false_r in Hx; discriminate].
    apply andb_true_iff in Hx, Hy. destruct Hx as [Hx Hxs], Hy as [Hy Hys].
    apply andb_true_iff in Hx, Hy. destruct Hx as [Hxn Hxg], Hy as [Hyn Hyg].
    apply String.eqb_eq in Hxn, Hxg, Hxs, Hyn, Hyg, Hys. congruence. }
  rewrite Hfind. split.
  - intros [-> | ->]; reflexivity.
  - intros pc -> Hpc. apply String.eqb_neq in Hpc. rewrite Hpc.
    split; intros ->; reflexivity.
Qed.

(** *** Profile lookup *)

Lemma profile_no_faults (role id : string) (w : World) :
  no_faults o ->
  snd (profile o role id w)
  = let f := if String.eqb role "librarian" then LIB_FILE else STUD_FILE in
    match find (fun u => String.eqb (user_id u) id) (map (as_user f) (stored f w)) with
    | None => Some NotFound
    | Some user => Some (json (UserBody (sanitizeUser user role)))
    end.
Proof.
  intros Hnf. unfold profile. rewrite (bind_some _ (ensureFiles_no_faults w Hnf)).
  cbv zeta. unfold bind at 1, readJson. rewrite (fs_ok _ _ (Hnf _)), content_ensured.
  destruct (find _ _); reflexivity.
Qed.

Lemma find_map_stud (id : string) (l : list Student) :
  find (fun u => String.eqb (user_id u) id) (map Stud l)
  = option_map Stud (find (fun s => String.eqb (s_id s) id) l).
Proof.
  induction l as [|s l IH]; [reflexivity|].
  cbn [map find user_id]. destruct (String.eqb (s_id s) id); [reflexivity | exact IH].
Qed.

Lemma find_map_lib (id : string) (l : list Librarian) :
  find (fun u => String.eqb (user_id u) id) (map Lib l)
  = option_map Lib (find (fun s => String.eqb (l_id s) id) l).
Proof.
  induction l as [|s l IH]; [reflexivity|].
  cbn [map find user_id]. destruct (String.eqb (l_id s) id); [reflexivity | exact IH].
Qed.

(** C10: the profile handler does not check its role.  Any role other than
    exactly "librarian" is served as "student" is: the student file is
    searched and, with no file-system call failing, the answer is the
    student-shaped profile of the first record with that id, or 404 "Not
    found" when no student has it.  No outcome is kept for an unknown
    role. *)
Theorem profile_unknown_role (role id : string) (w : World) :
  role <> "librarian" ->
  profile o role id w = profile o "student" id w
  /\ (no_faults o ->
      snd (profile o role id w)
      = match find (fun s => String.eqb (s_id s) id) (stored STUD_FILE w) with
        | Some s =>
            Some (json (UserBody (StudentProfile (s_id s) (Some (s_name s))
                                    (Some (s_grade s)) (Some (s_section s)))))
        | None => Some NotFound
        end).
Proof.
  intros Hrole. apply String.eqb_neq in Hrole. split.
  - unfold profile, sanitizeUser. rewrite Hrole. reflexivity.
  - intros Hnf. rewrite (profile_no_faults role id w Hnf). cbv zeta.
    rewrite Hrole. cbn [as_user]. rewrite find_map_stud.
    destruct (find _ _) as [s|]; [|reflexivity].
    cbn [option_map]. unfold sanitizeUser. rewrite Hrole. reflexivity.
Qed.

(** *** Registration keeps what is stored *)

(** Whatever fails, a librarian registration leaves the librarian file with
    the sequence it had, or with that sequence and the new record at its
    end, the latter only when no stored username collided; the student file
    keeps its sequence. *)
Lemma librarian_register_files (b : LibrarianBody) (w : World) :
  (stored LIB_FILE (fst (librarian_register P o b w)) = stored LIB_FILE w
   \/ (find (sameUsername P (username b)) (stored LIB_FILE w) = None
       /\ stored LIB_FILE (fst (librarian_register P o b w))
          = (stored LIB_FILE w ++ [newLibrarian P o b])%list))
  /\ stored STUD_FILE (fst (librarian_register P o b w)) = stored STUD_FILE w.
Proof.
  destruct (ensureFiles_cases w) as [(w1 & E & H1 & H2 & _)|E].
  { unfold librarian_register. rewrite (bind_none _ E). cbn [fst]. split; [now left | assumption]. }
  destruct (find (sameUsername P (username b)) (stored LIB_FILE w)) as [x|] eqn:Hf.
  { rewrite (librarian_register_collision_files b w x Hf E), !stored_ensured. auto. }
  destruct (librarianBodyValid P b) eqn:Hv.
  2:{ assert (Hfst : fst (librarian_register P o b w) = ensured w).
      { unfold librarian_register. now rewrite (bind_some _ E), Hv. }
      rewrite Hfst, !stored_ensured. split; [now left | reflexivity]. }
  destruct (fails o (ReadJson LIB_FILE)) eqn:Hr.
  { assert (Hfst : fst (librarian_register P o b w) = ensured w).
    { unfold librarian_register. rewrite (bind_some _ E), Hv. cbn [negb].
      unfold bind at 1, readJson, fs. now rewrite Hr. }
    rewrite Hfst, !stored_ensured. split; [now left | reflexivity]. }
  destruct (fails o (WriteJson LIB_FILE)) eqn:Hw.
  { assert (Hfst : fst (librarian_register P o b w) = ensured w).
    { unfold librarian_register. rewrite (bind_some _ E), Hv. cbn [negb].
      unfold bind at 1, readJson. rewrite (fs_ok _ _ Hr), content_ensured, Hf.
      unfold bind at 1, writeJson, fs. now rewrite Hw. }
    rewrite Hfst, !stored_ensured. split; [now left | reflexivity]. }
  rewrite (librarian_register_tail b w E Hv Hr Hw Hf). cbv zeta. cbn [fst].
  destruct (regenerateListFiles_run
              (set_content LIB_FILE (stored LIB_FILE w ++ [newLibrarian P o b])%list
                 (ensured w))) as (Hl & Hs & _).
  rewrite (stored_same_content LIB_FILE _ _ Hl), (stored_same_content STUD_FILE _ _ Hs).
  split; [right; split; reflexivity | reflexivity].
Qed.

Lemma student_register_files (b : StudentBody) (w : World) :
  (stored STUD_FILE (fst (student_register P o b w)) = stored STUD_FILE w
   \/ (find (sameStudent P (name b) (grade b) (section b)) (stored STUD_FILE w) = None
       /\ stored STUD_FILE (fst (student_register P o b w))
          = (stored STUD_FILE w ++ [newStudent P o b])%list))
  /\ stored LIB_FILE (fst (student_register P o b w)) = stored LIB_FILE w.
Proof.
  destruct (ensureFiles_cases w) as [(w1 & E & H1 & H2 & _)|E].
  { unfold student_register. rewrite (bind_none _ E). cbn [fst]. split; [now left | assumption]. }
  destruct (find (sameStudent P (name b) (grade b) (section b)) (stored STUD_FILE w))
    as [x|] eqn:Hf.
  { rewrite (student_register_collision_files b w x Hf E), !stored_ensured. auto. }
  destruct (studentBodyValid P b) eqn:Hv.
  2:{ assert (Hfst : fst (student_register P o b w) = ensured w).
      { unfold student_register. now rewrite (bind_some _ E), Hv. }
      rewrite Hfst, !stored_ensured. split; [now left | reflexivity]. }
  destruct (fails o (ReadJson STUD_FILE)) eqn:Hr.
  { assert (Hfst : fst (student_register P o b w) = ensured w).
    { unfold student_register. rewrite (bind_some _ E), Hv. cbn [negb].
      unfold bind at 1, readJson, fs. now rewrite Hr. }
    rewrite Hfst, !stored_ensured. split; [now left | reflexivity]. }
  destruct (fails o (WriteJson STUD_FILE)) eqn:Hw.
  { assert (Hfst : fst (student_register P o b w) = ensured w).
    { unfold student_register. rewrite (bind_some _ E), Hv. cbn [negb].
      unfold bind at 1, readJson. rewrite (fs_ok _ _ Hr), content_ensured, Hf.
      unfold bind at 1, writeJson, fs. now rewrite Hw. }
    rewrite Hfst, !stored_ensured. split; [now left | reflexivity]. }
  rewrite (student_register_tail b w E Hv Hr Hw Hf). cbv zeta. cbn [fst].
  destruct (regenerateListFiles_run
              (set_content STUD_FILE (stored STUD_FILE w ++ [newStudent P o b])%list
                 (ensured w))) as (Hl & Hs & _).
  rewrite (stored_same_content LIB_FILE _ _ Hl), (stored_same_content STUD_FILE _ _ Hs).
  split; [right; split; reflexivity | reflexivity].
Qed.

Lemma NoDup_snoc {K} (ks : list K) (k : K) :
  NoDup ks -> ~ In k ks -> NoDup (ks ++ [k]).
Proof.
  induction ks as [|a ks IH]; intros Hnd Hk.
  - repeat constructor. intros [].
  - inversion Hnd as [|a' ks' Ha Hks]; subst. cbn [app]. constructor.
    + intros Hin. apply in_app_or in Hin. destruct Hin as [Hin|[->|[]]].
      * now apply Ha.
      * apply Hk. now left.
    + apply IH; [exact Hks|]. intros Hin. apply Hk. now right.
Qed.

(** Spec section 3, invariants 2 and 3, are kept by the two registrations,
    whatever fails. *)
Lemma librarian_register_keeps_distinct (b : LibrarianBody) (w : World) :
  usernames_distinct P (stored LIB_FILE w) ->
  usernames_distinct P (stored LIB_FILE (fst (librarian_register P o b w))).
Proof.
  intros Hd. destruct (librarian_register_files b w) as ([-> | (Hf & ->)] & _);
    [exact Hd|].
  unfold usernames_distinct in *. rewrite map_app. cbn [map].
  apply NoDup_snoc; [exact Hd|]. intros Hin. apply in_map_iff in Hin.
  destruct Hin as (l & Hkey & Hin).
  pose proof (find_none _ _ Hf l Hin) as Hno. unfold sameUsername in Hno.
  apply String.eqb_neq in Hno. apply Hno. exact Hkey.
Qed.

Lemma student_register_keeps_distinct (b : StudentBody) (w : World) :
  students_distinct P (stored STUD_FILE w) ->
  students_distinct P (stored STUD_FILE (fst (student_register P o b w))).
Proof.
  intros Hd. destruct (student_register_files b w) as ([-> | (Hf & ->)] & _);
    [exact Hd|].
  unfold students_distinct in *. rewrite map_app. cbn [map].
  apply NoDup_snoc; [exact Hd|]. intros Hin. apply in_map_iff in Hin.
  destruct Hin as (s & Hkey & Hin).
  pose proof (find_none _ _ Hf s Hin) as Hno. unfold sameStudent in Hno.
  unfold studentKey in Hkey. cbn in Hkey. injection Hkey as Hn Hg Hs.
  rewrite Hn, Hg, Hs, !String.eqb_refl in Hno. discriminate.
Qed.

(** *** Registration and the pages *)


(** C4 (as the code has it): when the record files can be read and
    written but writing a page fails, a valid registration that collides
    with nothing has its record appended to its file, and the other file
    kept, before the failure; the failure then rejects the handler, which
    sends no response at all. *)
Theorem register_render_failure :
  store_ok o -> render_fails o ->
  (forall b w,
     librarianBodyValid P b = true ->
     find (sameUsername P (username b)) (stored LIB_FILE w) = None ->
     snd (librarian_register P o b w) = None
     /\ libFile (fst (librarian_register P o b w))
        = Some (stored LIB_FILE w ++ [newLibrarian P o b])%list
     /\ studFile (fst (librarian_register P o b w)) = Some (stored STUD_FILE w))
  /\ (forall b w,
        studentBodyValid P b = true ->
        find (sameStudent P (name b) (grade b) (section b)) (stored STUD_FILE w) = None ->
        snd (student_register P o b w) = None
        /\ studFile (fst (student_register P o b w))
           = Some (stored STUD_FILE w ++ [newStudent P o b])%list
        /\ libFile (fst (student_register P o b w)) = Some (stored LIB_FILE w)).
Proof.
  intros Hstore Hrender.
  pose proof Hstore as (_ & _ & Hread & Hwrite).
  split; intros b w Hv Hf.
  - rewrite (librarian_register_tail b w (ensureFiles_store_ok w Hstore) Hv
               (Hread _) (Hwrite _) Hf).
    cbv zeta. cbn [fst snd].
    rewrite (regenerateListFiles_fails _ Hrender).
    destruct (regenerateListFiles_run
                (set_content LIB_FILE (stored LIB_FILE w ++ [newLibrarian P o b])%list
                   (ensured w))) as (Hl & Hs & _).
    rewrite Hl, Hs. repeat split.
  - rewrite (student_register_tail b w (ensureFiles_store_ok w Hstore) Hv
               (Hread _) (Hwrite _) Hf).
    cbv zeta. cbn [fst snd].
    rewrite (regenerateListFiles_fails _ Hrender).
    destruct (regenerateListFiles_run
                (set_content STUD_FILE (stored STUD_FILE w ++ [newStudent P o b])%list
                   (ensured w))) as (Hl & Hs & _).
    rewrite Hl, Hs. repeat split.
Qed.

End ServerFacts.

(** ** Looking up what was just registered *)

Lemma find_fresh_last {A} (key : A -> string) (id : string) (old : list A) (new : A) :
  ~ In id (map key old) -> key new = id ->
  find (fun a => String.eqb (key a) id) (old ++ [new]) = Some new.
Proof.
  intros Hfresh Hnew. induction old as [|a old IH].
  - cbn [app find]. now rewrite Hnew, String.eqb_refl.
  - cbn [app find]. cbn [map In] in Hfresh.
    destruct (String.eqb_spec (key a) id) as [E|_].
    + exfalso. apply Hfresh. now left.
    + apply IH. intros H. apply Hfresh. now right.
Qed.

(** C8: after a register request of either kind is answered 200 with a
    profile, a profile request for that kind and the profile's id, with no
    file-system call failing, is answered 200 with the very same profile
    (id and the kind's display fields; a profile has no hash field).  The id
    [uuidv4()] returned is taken not to be among the ids the file already
    held, as section 4.2 of the spec does. *)
Theorem profile_after_register (P : Platform) (o o' : Oracle) :
  no_faults o' ->
  (forall b w u,
     snd (librarian_register P o b w) = Some (json (UserBody u)) ->
     ~ In (uuid o) (ids LIB_FILE w) ->
     snd (profile o' "librarian" (profile_id u) (fst (librarian_register P o b w)))
     = Some (json (UserBody u)))
  /\ (forall b w u,
        snd (student_register P o b w) = Some (json (UserBody u)) ->
        ~ In (uuid o) (ids STUD_FILE w) ->
        snd (profile o' "student" (profile_id u) (fst (student_register P o b w)))
        = Some (json (UserBody u))).
Proof.
  intros Hnf. split; intros b w u H Hfresh.
  - destruct (librarian_register_success P o b w u H) as (-> & -> & _).
    rewrite (profile_no_faults o' _ _ _ Hnf). cbv zeta.
    cbn [String.eqb Ascii.eqb Bool.eqb as_user sanitizeUser profile_id].
    rewrite find_map_lib.
    change (stored LIB_FILE (afterLibrarian o w (newLibrarian P o b)))
      with (stored LIB_FILE w ++ [newLibrarian P o b])%list.
    rewrite (find_fresh_last l_id); [reflexivity | | reflexivity].
    unfold ids in Hfresh. exact Hfresh.
  - destruct (student_register_success P o b w u H) as (-> & -> & _).
    rewrite (profile_no_faults o' _ _ _ Hnf). cbv zeta.
    cbn [String.eqb Ascii.eqb Bool.eqb as_user sanitizeUser profile_id].
    rewrite find_map_stud.
    change (stored STUD_FILE (afterStudent o w (newStudent P o b)))
      with (stored STUD_FILE w ++ [newStudent P o b])%list.
    rewrite (find_fresh_last s_id); [reflexivity | | reflexivity].
    unfold ids in Hfresh. exact Hfresh.
Qed.

(** ** Logging in with what was just registered *)

Lemma find_last {A} (p : A -> bool) (old : list A) (new : A) :
  find p old = None -> p new = true -> find p (old ++ [new]) = Some new.
Proof.
  intros Hnone Hnew. induction old as [|a old IH].
  - cbn [app find]. now rewrite Hnew.
  - cbn [app find] in *. destruct (p a); [discriminate | now apply IH].
Qed.

Section RegisterThenLogin.

Variable P : Platform.
Variables o o' : Oracle.

(** What bcrypt promises: a digest verifies the data it was made from. *)
Hypothesis bcrypt_sound :
  forall salt data, bcrypt_compare P (Some data) (bcrypt_hash P salt data) = Some true.

Lemma librarian_login_after_register (b : LibrarianBody) (w : World) :
  no_faults o -> no_faults o' -> librarianBodyValid P b = true ->
  find (sameUsername P (username b)) (stored LIB_FILE w) = None ->
  snd (librarian_login P o'
         {| login_username := Some (username b); login_password := Some (password b) |}
         (fst (librarian_register P o b w)))
  = Some (json (UserBody (LibrarianProfile (uuid o) (Some (username b))
                            (Some (fullname b))))).
Proof.
  intros Hnf Hnf' Hv Hf.
  rewrite (librarian_register_ok P o b w Hnf Hv Hf). cbn [fst].
  rewrite (librarian_login_no_faults P o' _ _ Hnf'). cbn [login_username given].
  change (stored LIB_FILE (afterLibrarian o w (newLibrarian P o b)))
    with (stored LIB_FILE w ++ [newLibrarian P o b])%list.
  rewrite (find_last _ _ _ Hf).
  - cbn [login_password newLibrarian l_passwordHash]. now rewrite bcrypt_sound.
  - unfold sameUsername. apply String.eqb_refl.
Qed.

Lemma student_login_after_register (b : StudentBody) (w : World) :
  no_faults o -> no_faults o' -> studentBodyValid P b = true ->
  find (sameStudent P (name b) (grade b) (section b)) (stored STUD_FILE w) = None ->
  snd (student_login P o'
         {| login_name := Some (name b); login_grade := Some (grade b);
            login_section := Some (section b); login_passcode := Some (passcode b) |}
         (fst (student_register P o b w)))
  = Some (json (UserBody (StudentProfile (uuid o) (Some (name b)) (Some (grade b))
                            (Some (section b))))).
Proof.
  intros Hnf Hnf' Hv Hf.
  rewrite (student_register_ok P o b w Hnf Hv Hf). cbn [fst].
  rewrite (student_login_no_faults P o' _ _ Hnf').
  change (stored STUD_FILE (afterStudent o w (newStudent P o b)))
    with (stored STUD_FILE w ++ [newStudent P o b])%list.
  assert (Hfind : forall l,
            find (sameStudent P (name b) (grade b) (section b)) l
            = find (sameStudentLogin P
                      {| login_name := Some (name b); login_grade := Some (grade b);
                         login_section := Some (section b);
                         login_passcode := Some (passcode b) |}) l).
  { intros l. induction l as [|s l IH]; [reflexivity|]. cbn [find]. rewrite IH.
    unfold sameStudent, sameStudentLogin.
    cbn [login_name login_grade login_section]. now rewrite !or_else_empty. }
  rewrite <- Hfind, (find_last _ _ _ Hf).
  - cbn [login_passcode newStudent s_passHash]. rewrite bcrypt_sound.
    now destruct (String.eqb (passcode b) "").
  - unfold sameStudent. cbn [newStudent s_name s_grade s_section].
    now rewrite !String.eqb_refl.
Qed.

End RegisterThenLogin.

(** ** The pages: one card per record *)

Lemma studentsListPage_public (now : string) (l l' : list Student) :
  map studentPublic l = map studentPublic l' ->
  studentsListPage now l = studentsListPage now l'.
Proof.
  intros H. unfold studentsListPage, studentsCardsHtml.
  now rewrite (map_public_studentCard l l' H).
Qed.

Lemma librariansListPage_public (now : string) (l l' : list Librarian) :
  map librarianPublic l = map librarianPublic l' ->
  librariansListPage now l = librariansListPage now l'.
Proof.
  intros H. unfold librariansListPage, librariansCardsHtml.
  now rewrite (map_public_librarianCard l l' H).
Qed.

(** C6: whatever the records, each list page holds exactly one card per
    record; the card of the record at position k is the card at position k
    of the page (as many cards before it as records before it, as many after
    as after); and the page is a function of the records' public fields
    alone, so two files that differ only in their hashes give the same page.
    The date text the footer shows is taken to have no [<] in it. *)
Theorem list_pages_one_card_per_record
    (now : string) (students : list Student) (libs : list Librarian) :
  no_lt now = true ->
  (countCards (studentsListPage now students) = length students
   /\ (forall l1 s l2, students = (l1 ++ s :: l2)%list ->
         exists pre post,
           studentsListPage now students = pre ++ studentCard s ++ post
           /\ countCards pre = length l1 /\ countCards post = length l2)
   /\ (forall students',
         map studentPublic students' = map studentPublic students ->
         studentsListPage now students' = studentsListPage now students))
  /\ (countCards (librariansListPage now libs) = length libs
      /\ (forall l1 l l2, libs = (l1 ++ l :: l2)%list ->
            exists pre post,
              librariansListPage now libs = pre ++ librarianCard l ++ post
              /\ countCards pre = length l1 /\ countCards post = length l2)
      /\ (forall libs',
            map librarianPublic libs' = map librarianPublic libs ->
            librariansListPage now libs' = librariansListPage now libs)).
Proof.
  intros Hnow. split; (split; [|split]).
  - now apply studentsListPage_count.
  - intros l1 s l2 ->. now apply studentsListPage_nth.
  - intros students'. apply studentsListPage_public.
  - now apply librariansListPage_count.
  - intros l1 l l2 ->. now apply librariansListPage_nth.
  - intros libs'. apply librariansListPage_public.
Qed.


(** ** The theorems at concrete requests *)

Lemma calm_no_faults (id : string) : no_faults (calmOracle id).
Proof. intros op. reflexivity. Defined.


Lemma student_register_comparator_witness :
  (studentBodyValid demoPlatform registerBOB = true
   /\ snd (student_register demoPlatform (calmOracle "id-9") registerBOB aliceWorld)
      = Some DuplicateStudent)
  /\ (studentBodyValid demoPlatform registerBob10a = true
      /\ snd (student_register demoPlatform (calmOracle "id-9") registerBob10a aliceWorld)
         = Some (json (UserBody (StudentProfile "id-9" (Some "Bob Cruz") (Some "10a")
                                   (Some "Rizal"))))
      /\ length (stored STUD_FILE
                   (fst (student_register demoPlatform (calmOracle "id-9")
                           registerBob10a aliceWorld))) = 2).
Proof.
  split.
  - split; [reflexivity|].
    apply (student_register_comparator demoPlatform (calmOracle "id-9") registerBOB
             aliceWorld eq_refl (calm_no_faults "id-9"))
      with (s := bob); [left|..]; reflexivity.
  - split; [reflexivity|].
    destruct (student_register_comparator demoPlatform (calmOracle "id-9")
                registerBob10a aliceWorld eq_refl (calm_no_faults "id-9"))
      as (_ & Hok).
    destruct Hok as (Hresp & Hstored).
    + intros s [<-|[]] _ _. vm_compute. discriminate.
    + split; [exact Hresp|]. rewrite Hstored. reflexivity.
Defined.

Lemma librarian_login_outcomes_witness :
  snd (librarian_login demoPlatform (calmOracle "-") (loginAlice "Secret123") aliceWorld)
  = Some (json (UserBody (LibrarianProfile "id-1" (Some "alice") (Some "Alice A"))))
  /\ snd (librarian_login demoPlatform (calmOracle "-") (loginAlice "wrong") aliceWorld)
     = Some InvalidCredentials
  /\ snd (librarian_login demoPlatform (calmOracle "-") loginNobody aliceWorld)
     = Some InvalidCredentials.
Proof.
  assert (Hd : usernames_distinct demoPlatform (stored LIB_FILE aliceWorld)).
  { repeat constructor. simpl. tauto. }
  assert (Hin : In alice (stored LIB_FILE aliceWorld)) by (left; reflexivity).
  split; [|split].
  - apply (librarian_login_outcomes demoPlatform (calmOracle "-") (loginAlice "Secret123")
             aliceWorld (calm_no_faults "-") Hd) with (u := alice);
      [exact Hin | reflexivity | reflexivity].
  - apply (librarian_login_outcomes demoPlatform (calmOracle "-") (loginAlice "wrong")
             aliceWorld (calm_no_faults "-") Hd) with (u := alice);
      [exact Hin | reflexivity | reflexivity].
  - apply (librarian_login_outcomes demoPlatform (calmOracle "-") loginNobody
             aliceWorld (calm_no_faults "-") Hd).
    intros u [<-|[]]. vm_compute. discriminate.
Defined.

(** C4 as stated fails here: registering carol while the students page
    cannot be written leaves carol in the librarian file, and the handler
    rejects instead of answering. *)
Lemma register_render_failure_no_response :
  libFile (fst (librarian_register demoPlatform (renderFailsOracle "id-3") registerCarol
                  aliceWorld))
  = Some [alice; newLibrarian demoPlatform (renderFailsOracle "id-3") registerCarol]
  /\ snd (librarian_register demoPlatform (renderFailsOracle "id-3") registerCarol
            aliceWorld)
     <> Some (json (UserBody (LibrarianProfile "id-3" (Some "carol") (Some "Carol C"))))
  /\ snd (librarian_register demoPlatform (renderFailsOracle "id-3") registerCarol
            aliceWorld)
     = None.
Proof.
  assert (H : snd (librarian_register demoPlatform (renderFailsOracle "id-3")
                     registerCarol aliceWorld) = None) by (vm_compute; reflexivity).
  split; [vm_compute; reflexivity|]. split; [rewrite H; discriminate | exact H].
Qed.

Lemma renderFails_store_ok (id : string) : store_ok (renderFailsOracle id).
Proof. repeat split. Defined.

Lemma register_render_failure_witness :
  store_ok (renderFailsOracle "id-3") /\ render_fails (renderFailsOracle "id-3")
  /\ (snd (librarian_register demoPlatform (renderFailsOracle "id-3") registerCarol
             aliceWorld) = None
      /\ libFile (fst (librarian_register demoPlatform (renderFailsOracle "id-3")
                         registerCarol aliceWorld))
         = Some [alice; newLibrarian demoPlatform (renderFailsOracle "id-3") registerCarol])
  /\ (snd (student_register demoPlatform (renderFailsOracle "id-3") registerBob10a
             aliceWorld) = None
      /\ studFile (fst (student_register demoPlatform (renderFailsOracle "id-3")
                          registerBob10a aliceWorld))
         = Some [bob; newStudent demoPlatform (renderFailsOracle "id-3") registerBob10a]).
Proof.
  assert (Hr : render_fails (renderFailsOracle "id-3")) by (left; reflexivity).
  destruct (register_render_failure demoPlatform (renderFailsOracle "id-3")
              (renderFails_store_ok "id-3") Hr) as (Hlib & Hstud).
  split; [apply renderFails_store_ok|]. split; [exact Hr|]. split.
  - destruct (Hlib registerCarol aliceWorld eq_refl eq_refl) as (H1 & H2 & _).
    split; [exact H1 | exact H2].
  - destruct (Hstud registerBob10a aliceWorld eq_refl eq_refl) as (H1 & H2 & _).
    split; [exact H1 | exact H2].
Defined.

(** C5 as stated fails here: the request carries a passcode, the empty
    string, which bcrypt refuses for bob's hash, and bob's record is
    returned all the same. *)
Lemma student_login_empty_passcode_accepted :
  bcrypt_compare demoPlatform (Some "") (s_passHash bob) = Some false
  /\ snd (student_login demoPlatform (calmOracle "-") (loginBob (Some "")) aliceWorld)
     = Some (json (UserBody (StudentProfile "id-2" (Some "Bob Cruz") (Some "10A")
                               (Some "Rizal"))))
  /\ snd (student_login demoPlatform (calmOracle "-") (loginBob (Some "")) aliceWorld)
     <> Some InvalidCredentials.
Proof. split; [reflexivity|]. split; [reflexivity | vm_compute; discriminate]. Qed.

Lemma student_login_passcode_witness :
  snd (student_login demoPlatform (calmOracle "-") (loginBob None) aliceWorld)
  = Some (json (UserBody (StudentProfile "id-2" (Some "Bob Cruz") (Some "10A")
                            (Some "Rizal"))))
  /\ snd (student_login demoPlatform (calmOracle "-") (loginBob (Some "9999")) aliceWorld)
     = Some InvalidCredentials
  /\ snd (student_login demoPlatform (calmOracle "-") (loginBob (Some "1234")) aliceWorld)
     = Some (json (UserBody (StudentProfile "id-2" (Some "Bob Cruz") (Some "10A")
                               (Some "Rizal")))).
Proof.
  assert (Hd : students_distinct demoPlatform (stored STUD_FILE aliceWorld)).
  { repeat constructor. simpl. tauto. }
  assert (Hin : In bob (stored STUD_FILE aliceWorld)) by (left; reflexivity).
  split; [|split].
  - apply (student_login_passcode demoPlatform (calmOracle "-") (loginBob None) aliceWorld
             bob (calm_no_faults "-") Hd Hin eq_refl).
    left. reflexivity.
  - apply (student_login_passcode demoPlatform (calmOracle "-") (loginBob (Some "9999"))
             aliceWorld bob (calm_no_faults "-") Hd Hin eq_refl) with (pc := "9999");
      [reflexivity | discriminate | reflexivity].
  - apply (student_login_passcode demoPlatform (calmOracle "-") (loginBob (Some "1234"))
             aliceWorld bob (calm_no_faults "-") Hd Hin eq_refl) with (pc := "1234");
      [reflexivity | discriminate | reflexivity].
Defined.

Lemma list_pages_one_card_per_record_witness :
  no_lt "11/3/2026, 10:15:00 AM" = true
  /\ countCards (studentsListPage "11/3/2026, 10:15:00 AM" [bob; bob]) = 2
  /\ countCards (librariansListPage "11/3/2026, 10:15:00 AM" [alice]) = 1.
Proof.
  destruct (list_pages_one_card_per_record "11/3/2026, 10:15:00 AM" [bob; bob] [alice]
              eq_refl) as ((Hs & _) & (Hl & _)).
  split; [reflexivity|]. split; [exact Hs | exact Hl].
Defined.

Lemma profile_after_register_witness :
  no_faults (calmOracle "-")
  /\ snd (librarian_register demoPlatform (calmOracle "id-3") registerCarol aliceWorld)
     = Some (json (UserBody (LibrarianProfile "id-3" (Some "carol") (Some "Carol C"))))
  /\ ~ In (uuid (calmOracle "id-3")) (ids LIB_FILE aliceWorld)
  /\ snd (profile (calmOracle "-") "librarian" "id-3"
            (fst (librarian_register demoPlatform (calmOracle "id-3") registerCarol
                    aliceWorld)))
     = Some (json (UserBody (LibrarianProfile "id-3" (Some "carol") (Some "Carol C"))))
  /\ snd (profile (calmOracle "-") "student" "id-4"
            (fst (student_register demoPlatform (calmOracle "id-4") registerBob10a
                    aliceWorld)))
     = Some (json (UserBody (StudentProfile "id-4" (Some "Bob Cruz") (Some "10a")
                               (Some "Rizal")))).
Proof.
  assert (Hreg : snd (librarian_register demoPlatform (calmOracle "id-3") registerCarol
                        aliceWorld)
                 = Some (json (UserBody (LibrarianProfile "id-3" (Some "carol")
                                           (Some "Carol C")))))
    by (vm_compute; reflexivity).
  assert (Hreg' : snd (student_register demoPlatform (calmOracle "id-4") registerBob10a
                         aliceWorld)
                  = Some (json (UserBody (StudentProfile "id-4" (Some "Bob Cruz")
                                            (Some "10a") (Some "Rizal")))))
    by (vm_compute; reflexivity).
  assert (Hfresh : ~ In (uuid (calmOracle "id-3")) (ids LIB_FILE aliceWorld)).
  { intros [H|[]]. vm_compute in H. discriminate. }
  assert (Hfresh' : ~ In (uuid (calmOracle "id-4")) (ids STUD_FILE aliceWorld)).
  { intros [H|[]]. vm_compute in H. discriminate. }
  split; [apply calm_no_faults|]. split; [exact Hreg|]. split; [exact Hfresh|].
  split.
  - exact (proj1 (profile_after_register demoPlatform (calmOracle "id-3") (calmOracle "-")
                    (calm_no_faults "-")) registerCarol aliceWorld _ Hreg Hfresh).
  - exact (proj2 (profile_after_register demoPlatform (calmOracle "id-4") (calmOracle "-")
                    (calm_no_faults "-")) registerBob10a aliceWorld _ Hreg' Hfresh').
Defined.


Lemma profile_unknown_role_witness :
  "admin" <> "librarian"
  /\ snd (profile (calmOracle "-") "admin" "id-2" aliceWorld)
     = Some (json (UserBody (StudentProfile "id-2" (Some "Bob Cruz") (Some "10A")
                               (Some "Rizal"))))
  /\ snd (profile (calmOracle "-") "Librarian" "id-1" aliceWorld) = Some NotFound.
Proof.
  split; [discriminate|]. split.
  - apply (profile_unknown_role (calmOracle "-") "admin" "id-2" aliceWorld);
      [discriminate | apply calm_no_faults].
  - apply (profile_unknown_role (calmOracle "-") "Librarian" "id-1" aliceWorld);
      [discriminate | apply calm_no_faults].
Defined.


(** * More about the code *)

(** ** escapeHtml *)

Lemma string_length_app (a b : string) :
  String.length (a ++ b) = String.length a + String.length b.
Proof. induction a as [|x a IH]; simpl; [reflexivity | now rewrite IH]. Qed.

Lemma escapeEach_app (s t : string) :
  escapeEach (s ++ t) = escapeEach s ++ escapeEach t.
Proof.
  induction s as [|a s IH]; [reflexivity|].
  cbn [String.append escapeEach]. now rewrite IH, string_app_assoc.
Qed.

Lemma unescape_escapeEach (s : string) : unescapeFrom 0 (escapeEach s) = s.
Proof.
  induction s as [|a s IH]; [reflexivity|].
  cbn [escapeEach]. now rewrite unescape_escapeChar, IH.
Qed.

Lemma escapeChar_length (a : ascii) :
  1 <= String.length (escapeChar a) <= 6
  /\ (String.length (escapeChar a) = 1 -> special a = false).
Proof.
  unfold escapeChar, special.
  destruct (Ascii.eqb a "&"); [cbn; split; [lia | discriminate]|].
  destruct (Ascii.eqb a "<"); [cbn; split; [lia | discriminate]|].
  destruct (Ascii.eqb a ">"); [cbn; split; [lia | discriminate]|].
  destruct (Ascii.eqb a dquote); [cbn; split; [lia | discriminate]|].
  cbn. split; [lia | reflexivity].
Qed.

Lemma escapeChar_plain (a : ascii) :
  special a = false -> escapeChar a = String a EmptyString.
Proof.
  unfold special, escapeChar. intros H.
  destruct (Ascii.eqb a "&"); [discriminate|].
  destruct (Ascii.eqb a "<"); [discriminate|].
  destruct (Ascii.eqb a ">"); [discriminate|].
  destruct (Ascii.eqb a dquote); [discriminate|]. reflexivity.
Qed.

Lemma escapeEach_length (s : string) :
  String.length s <= String.length (escapeEach s) <= 6 * String.length s.
Proof.
  induction s as [|a s IH]; [cbn; lia|].
  cbn [escapeEach]. rewrite string_length_app. cbn [String.length].
  destruct (escapeChar_length a) as (H & _). lia.
Qed.

(** X1: escaping a text built from two parts is escaping each part: the
    passes look at one character at a time, so nothing is rewritten across
    the seam. *)
Theorem escapeHtml_append (s t : string) :
  escapeHtml (s ++ t) = escapeHtml s ++ escapeHtml t.
Proof. rewrite !escapeHtml_each. apply escapeEach_app. Qed.

(** X2: two different texts never escape to the same text, so a card tells
    apart any two field values. *)
Theorem escapeHtml_injective (s t : string) :
  escapeHtml s = escapeHtml t -> s = t.
Proof.
  rewrite !escapeHtml_each. intros H.
  rewrite <- (unescape_escapeEach s), <- (unescape_escapeEach t). now rewrite H.
Qed.

(** X3: [escapeHtml] returns its argument unchanged exactly when the text
    has none of [&], [<], [>] and the double quote; in particular an
    already escaped text is escaped again. *)
Theorem escapeHtml_unchanged_iff (s : string) :
  escapeHtml s = s <-> plain s = true.
Proof.
  rewrite escapeHtml_each. split.
  - intros H. assert (Hlen : String.length (escapeEach s) = String.length s)
      by now rewrite H.
    clear H. induction s as [|a s IH]; [reflexivity|].
    cbn [escapeEach plain] in *. rewrite string_length_app in Hlen.
    cbn [String.length] in Hlen.
    destruct (escapeChar_length a) as (Ha & Hone).
    pose proof (escapeEach_length s) as Hs.
    rewrite Hone by lia. cbn [negb andb]. apply IH. lia.
  - induction s as [|a s IH]; [reflexivity|].
    cbn [plain escapeEach]. intros H. apply andb_true_iff in H.
    destruct H as [Ha Hs]. apply negb_true_iff in Ha.
    now rewrite (escapeChar_plain a Ha), (IH Hs).
Qed.

(** X4: escaping never shortens a text and makes it at most six times as
    long (the longest replacement, for the double quote, has six
    characters). *)
Theorem escapeHtml_length (s : string) :
  String.length s <= String.length (escapeHtml s) <= 6 * String.length s.
Proof. rewrite escapeHtml_each. apply escapeEach_length. Qed.

Lemma escapeHtml_injective_witness :
  escapeHtml "a<b" = escapeHtml ("a" ++ "<b") /\ "a<b" = "a" ++ "<b".
Proof.
  assert (H : escapeHtml "a<b" = escapeHtml ("a" ++ "<b")) by reflexivity.
  split; [exact H | exact (escapeHtml_injective "a<b" ("a" ++ "<b") H)].
Defined.

(** ** The pages *)

Lemma occurrences_skip_tag (m x t : string) :
  no_lt x = true ->
  occurrences (String "<" m) (x ++ t) = occurrences (String "<" m) t.
Proof.
  induction x as [|c x IH]; [reflexivity|].
  cbn [no_lt]. intros H. apply andb_true_iff in H. destruct H as [Hc Hx].
  cbn [String.append occurrences]. rewrite (IH Hx).
  cbn [starts_with]. rewrite Ascii.eqb_sym.
  destruct (Ascii.eqb c "<"); [discriminate | reflexivity].
Qed.

(** Count a tag through the literal parts of a text and skip each escaped
    field. *)
Ltac count_tag :=
  repeat rewrite string_app_assoc;
  repeat first
    [ rewrite occurrences_skip_tag by (first [apply escapeHtml_no_lt | assumption])
    | progress cbn [occurrences starts_with String.append dq dquote
                    Ascii.eqb Bool.eqb andb Nat.add] ].

Section Tags.

Variable tag : string.
Context {A : Type}.
Variable card : A -> string.
Hypothesis card_without :
  forall a t, occurrences tag (card a ++ t) = occurrences tag t.
Hypothesis nl_without :
  forall t, occurrences tag (nl ++ t) = occurrences tag t.

Lemma occurrences_joinAfter (l : list A) (t : string) :
  occurrences tag (joinAfter nl (map card l) ++ t) = occurrences tag t.
Proof.
  induction l as [|a l IH]; [reflexivity|].
  cbn [map joinAfter]. rewrite !string_app_assoc.
  now rewrite nl_without, card_without, IH.
Qed.

Lemma occurrences_join (l : list A) (t : string) :
  occurrences tag (join nl (map card l) ++ t) = occurrences tag t.
Proof.
  destruct l as [|a l]; [reflexivity|].
  cbn [map]. rewrite join_cons_after, string_app_assoc.
  now rewrite card_without, occurrences_joinAfter.
Qed.

End Tags.

(** X5: a list page shows its "No ... accounts yet." paragraph exactly when
    the file holds no record: once for the empty sequence, never otherwise,
    whatever the records' fields contain.  The date text is taken to have
    no [<] in it. *)
Theorem placeholder_only_when_empty
    (now : string) (students : list Student) (libs : list Librarian) :
  no_lt now = true ->
  occurrences studentsPlaceholder (studentsListPage now students)
  = match students with [] => 1 | _ :: _ => 0 end
  /\ occurrences librariansPlaceholder (librariansListPage now libs)
     = match libs with [] => 1 | _ :: _ => 0 end.
Proof.
  intros Hnow. split.
  - unfold studentsListPage, studentsListHtml, studentsCardsHtml, studentsPlaceholder.
    assert (Htop : forall t,
              occurrences "<p>No student accounts yet.</p>" (studentsListTop ++ t)
              = occurrences "<p>No student accounts yet.</p>" t).
    { intros t. unfold studentsListTop.
      change (escapeHtml ORIGINAL_STUDENT_PAGE) with ORIGINAL_STUDENT_PAGE.
      change (escapeHtml ORIGINAL_LIBRARIAN_PAGE) with ORIGINAL_LIBRARIAN_PAGE.
      unfold ORIGINAL_STUDENT_PAGE, ORIGINAL_LIBRARIAN_PAGE. count_tag. reflexivity. }
    rewrite Htop. destruct students as [|a l].
    + cbn [map join or_else truthy String.eqb negb].
      unfold studentsListBottom. count_tag. reflexivity.
    + rewrite (cards_truthy studentCard studentCard_truthy).
      rewrite (occurrences_join "<p>No student accounts yet.</p>" studentCard).
      * unfold studentsListBottom. count_tag. reflexivity.
      * intros s t. unfold studentCard. count_tag. reflexivity.
      * intros t. reflexivity.
  - unfold librariansListPage, librariansListHtml, librariansCardsHtml,
      librariansPlaceholder.
    assert (Htop : forall t,
              occurrences "<p>No librarian accounts yet.</p>" (librariansListTop ++ t)
              = occurrences "<p>No librarian accounts yet.</p>" t).
    { intros t. unfold librariansListTop.
      change (escapeHtml ORIGINAL_STUDENT_PAGE) with ORIGINAL_STUDENT_PAGE.
      change (escapeHtml ORIGINAL_LIBRARIAN_PAGE) with ORIGINAL_LIBRARIAN_PAGE.
      unfold ORIGINAL_STUDENT_PAGE, ORIGINAL_LIBRARIAN_PAGE. count_tag. reflexivity. }
    rewrite Htop. destruct libs as [|a l].
    + cbn [map join or_else truthy String.eqb negb].
      unfold librariansListBottom. count_tag. reflexivity.
    + rewrite (cards_truthy librarianCard librarianCard_truthy).
      rewrite (occurrences_join "<p>No librarian accounts yet.</p>" librarianCard).
      * unfold librariansListBottom. count_tag. reflexivity.
      * intros s t. unfold librarianCard. count_tag. reflexivity.
      * intros t. reflexivity.
Qed.

Lemma placeholder_only_when_empty_witness :
  no_lt "11/3/2026, 10:15:00 AM" = true
  /\ occurrences studentsPlaceholder (studentsListPage "11/3/2026, 10:15:00 AM" []) = 1
  /\ occurrences librariansPlaceholder
       (librariansListPage "11/3/2026, 10:15:00 AM" [alice]) = 0.
Proof.
  destruct (placeholder_only_when_empty "11/3/2026, 10:15:00 AM" [] [alice] eq_refl)
    as (Hs & Hl).
  split; [reflexivity|]. split; [exact Hs | exact Hl].
Defined.

Lemma count_char_app (c : ascii) (s t : string) :
  count_char c (s ++ t) = count_char c s + count_char c t.
Proof.
  induction s as [|a s IH]; [reflexivity|].
  cbn [String.append count_char]. rewrite IH. lia.
Qed.

Lemma structural_cases (c : ascii) :
  structural c = true -> c = "<"%char \/ c = ">"%char \/ c = dquote.
Proof.
  unfold structural. intros H.
  destruct (Ascii.eqb_spec c "<"); [now left|].
  destruct (Ascii.eqb_spec c ">"); [now right; left|].
  destruct (Ascii.eqb_spec c dquote); [now right; right | discriminate].
Qed.

Lemma count_char_escapeHtml (c : ascii) (s : string) :
  structural c = true -> count_char c (escapeHtml s) = 0.
Proof.
  intros Hc. rewrite escapeHtml_each.
  induction s as [|a s IH]; [reflexivity|].
  cbn [escapeEach]. rewrite count_char_app, IH, Nat.add_0_r.
  unfold escapeChar.
  destruct (Ascii.eqb a "&") eqn:E1;
    [destruct (structural_cases c Hc) as [->|[->| ->]]; reflexivity|].
  destruct (Ascii.eqb a "<") eqn:E2;
    [destruct (structural_cases c Hc) as [->|[->| ->]]; reflexivity|].
  destruct (Ascii.eqb a ">") eqn:E3;
    [destruct (structural_cases c Hc) as [->|[->| ->]]; reflexivity|].
  destruct (Ascii.eqb a dquote) eqn:E4;
    [destruct (structural_cases c Hc) as [->|[->| ->]]; reflexivity|].
  cbn [count_char].
  destruct (structural_cases c Hc) as [->|[->| ->]]; now rewrite ?E2, ?E3, ?E4.
Qed.

Lemma count_char_studentCard (c : ascii) (s s' : Student) :
  structural c = true ->
  count_char c (studentCard s) = count_char c (studentCard s').
Proof.
  intros Hc. unfold studentCard.
  rewrite !count_char_app, !(count_char_escapeHtml c _ Hc). reflexivity.
Qed.

Lemma count_char_librarianCard (c : ascii) (l l' : Librarian) :
  structural c = true ->
  count_char c (librarianCard l) = count_char c (librarianCard l').
Proof.
  intros Hc. unfold librarianCard.
  rewrite !count_char_app, !(count_char_escapeHtml c _ Hc). reflexivity.
Qed.

Lemma count_char_joinAfter {A} (c : ascii) (card : A -> string) (l l' : list A) :
  (forall a b, count_char c (card a) = count_char c (card b)) ->
  length l = length l' ->
  count_char c (joinAfter nl (map card l)) = count_char c (joinAfter nl (map card l')).
Proof.
  intros Hcard. revert l'.
  induction l as [|a l IH]; intros [|b l'] Hlen; try discriminate; [reflexivity|].
  cbn [map joinAfter]. rewrite !count_char_app.
  rewrite (Hcard a b), (IH l') by (cbn in Hlen; lia). reflexivity.
Qed.

Lemma count_char_join {A} (c : ascii) (card : A -> string) (l l' : list A) :
  (forall a b, count_char c (card a) = count_char c (card b)) ->
  length l = length l' ->
  count_char c (join nl (map card l)) = count_char c (join nl (map card l')).
Proof.
  intros Hcard Hlen.
  destruct l as [|a l], l' as [|b l']; try discriminate; [reflexivity|].
  cbn [map]. rewrite !join_cons_after, !count_char_app.
  rewrite (Hcard a b), (count_char_joinAfter c card l l' Hcard) by (cbn in Hlen; lia).
  reflexivity.
Qed.

(** X6: how many [<], [>] and double quotes a list page has depends on how
    many records it lists and on nothing they contain: two files of the same
    length give pages with the same count of each, so no field value adds or
    removes a tag or an attribute delimiter. *)
Theorem page_markup_independent_of_fields
    (c : ascii) (now : string) (l l' : list Student) (m m' : list Librarian) :
  structural c = true ->
  length l = length l' ->
  length m = length m' ->
  count_char c (studentsListPage now l) = count_char c (studentsListPage now l')
  /\ count_char c (librariansListPage now m) = count_char c (librariansListPage now m').
Proof.
  intros Hc Hl Hm. split.
  - unfold studentsListPage, studentsListHtml, studentsCardsHtml.
    rewrite !count_char_app. f_equal. f_equal.
    destruct l as [|a l], l' as [|b l']; try discriminate; [reflexivity|].
    rewrite !(cards_truthy studentCard studentCard_truthy).
    apply count_char_join; [|exact Hl].
    intros x y. now apply count_char_studentCard.
  - unfold librariansListPage, librariansListHtml, librariansCardsHtml.
    rewrite !count_char_app. f_equal. f_equal.
    destruct m as [|a m], m' as [|b m']; try discriminate; [reflexivity|].
    rewrite !(cards_truthy librarianCard librarianCard_truthy).
    apply count_char_join; [|exact Hm].
    intros x y. now apply count_char_librarianCard.
Qed.

Lemma page_markup_independent_of_fields_witness :
  structural "<" = true
  /\ length [bob] = length [mallory]
  /\ count_char "<" (studentsListPage "now" [bob])
     = count_char "<" (studentsListPage "now" [mallory]).
Proof.
  split; [reflexivity|]. split; [reflexivity|].
  exact (proj1 (page_markup_independent_of_fields "<" "now" [bob] [mallory] [] []
                  eq_refl eq_refl eq_refl)).
Defined.

(** ** ensureFiles and regenerateListFiles *)




(** X9: running [ensureFiles] again after it ran to its end, with the same
    calls failing or not, changes nothing and runs to its end again. *)
Theorem ensureFiles_twice (o : Oracle) (w : World) :
  snd (ensureFiles o w) = Some tt ->
  ensureFiles o (fst (ensureFiles o w)) = (fst (ensureFiles o w), Some tt).
Proof.
  intros Hdone.
  destruct (ensureFiles_cases o w) as [(w1 & E & _)|E]; rewrite E in Hdone;
    [discriminate|].
  rewrite E. cbn [fst]. revert E.
  unfold ensureFiles, ensureDir, pathExists, writeJson, bind, fs, ret.
  destruct (fails o EnsureDir); [discriminate|].
  destruct (fails o (PathExists LIB_FILE)); [discriminate|].
  cbn [content ensured libFile negb].
  destruct (libFile w) as [libs|]; cbn [negb].
  - destruct (fails o (PathExists STUD_FILE)); [discriminate|]. reflexivity.
  - destruct (fails o (WriteJson LIB_FILE)); [discriminate|].
    cbn [content set_content studFile].
    destruct (fails o (PathExists STUD_FILE)); [discriminate|]. reflexivity.
Qed.

Lemma ensureFiles_twice_witness :
  snd (ensureFiles (calmOracle "-") freshWorld) = Some tt
  /\ ensureFiles (calmOracle "-") (fst (ensureFiles (calmOracle "-") freshWorld))
     = (fst (ensureFiles (calmOracle "-") freshWorld), Some tt).
Proof.
  split; [reflexivity|].
  exact (ensureFiles_twice (calmOracle "-") freshWorld eq_refl).
Defined.

(** X10: [regenerateListFiles] never changes a record file; when it does
    not run to its end the librarians page is what it was; and when either
    record file is missing it writes nothing at all. *)
Theorem regenerateListFiles_keeps_files (o : Oracle) (w : World) :
  libFile (fst (regenerateListFiles o w)) = libFile w
  /\ studFile (fst (regenerateListFiles o w)) = studFile w
  /\ (snd (regenerateListFiles o w) = None ->
      librariansList (fst (regenerateListFiles o w)) = librariansList w)
  /\ (libFile w = None \/ studFile w = None ->
      regenerateListFiles o w = (w, None)).
Proof.
  destruct (regenerateListFiles_run o w) as (Hl & Hs & _ & Hfail).
  split; [exact Hl|]. split; [exact Hs|]. split.
  - intros H. now apply Hfail.
  - intros Hmissing.
    unfold regenerateListFiles, generateStudentsListPage, readJson, bind, fs.
    cbn [content].
    destruct (fails o (ReadJson STUD_FILE)); [reflexivity|].
    destruct (studFile w) as [studs|]; [|reflexivity].
    destruct (fails o (ReadJson LIB_FILE)); [reflexivity|].
    destruct (libFile w) as [libs|]; [|reflexivity].
    destruct Hmissing; discriminate.
Qed.

(** X11: the two pages are not written as one.  When both files can be
    read and only the write of the librarians page fails, the call rejects
    with the students page already replaced by the fresh rendering and the
    librarians page left as it was. *)
Theorem regenerateListFiles_half_done
    (o : Oracle) (w : World) (libs : list Librarian) (studs : list Student) :
  libFile w = Some libs -> studFile w = Some studs ->
  fails o (ReadJson STUD_FILE) = false -> fails o (ReadJson LIB_FILE) = false ->
  fails o (WriteFile STUDENTS_LIST) = false ->
  fails o (WriteFile LIBRARIANS_LIST) = true ->
  snd (regenerateListFiles o w) = None
  /\ studentsList (fst (regenerateListFiles o w))
     = Some (studentsListPage (now_students o) studs)
  /\ librariansList (fst (regenerateListFiles o w)) = librariansList w.
Proof.
  intros Hl Hs H1 H2 H3 H4.
  unfold regenerateListFiles, generateStudentsListPage, generateLibrariansListPage,
    readJson, writeFile, bind, fs.
  rewrite H1. cbn [content]. rewrite Hs, H2. cbn [content]. rewrite Hl, H3, H4.
  repeat split.
Qed.

Lemma regenerateListFiles_half_done_witness :
  snd (regenerateListFiles (librariansPageFailsOracle "-") aliceWorld) = None
  /\ studentsList (fst (regenerateListFiles (librariansPageFailsOracle "-") aliceWorld))
     = Some (studentsListPage "11/3/2026, 10:15:00 AM" [bob])
  /\ librariansList (fst (regenerateListFiles (librariansPageFailsOracle "-") aliceWorld))
     = None.
Proof.
  exact (regenerateListFiles_half_done (librariansPageFailsOracle "-") aliceWorld
           [alice] [bob] eq_refl eq_refl eq_refl eq_refl eq_refl eq_refl).
Defined.

(** X12: the pages [regenerateListFiles] writes are a function of the two
    files and the date: running it again after it ran to its end, with the
    same date texts, leaves everything as it is. *)
Theorem regenerateListFiles_twice (o : Oracle) (w : World) :
  snd (regenerateListFiles o w) = Some tt ->
  regenerateListFiles o (fst (regenerateListFiles o w))
  = (fst (regenerateListFiles o w), Some tt).
Proof.
  unfold regenerateListFiles, generateStudentsListPage, generateLibrariansListPage,
    readJson, writeFile, bind, fs.
  destruct w as [lf sf sl ll]. cbn [content libFile studFile].
  destruct (fails o (ReadJson STUD_FILE)) eqn:H1; [discriminate|].
  destruct sf as [studs|]; [|discriminate].
  destruct (fails o (ReadJson LIB_FILE)) eqn:H2; [discriminate|].
  destruct lf as [libs|]; [|discriminate].
  destruct (fails o (WriteFile STUDENTS_LIST)) eqn:H3; [discriminate|].
  destruct (fails o (WriteFile LIBRARIANS_LIST)) eqn:H4; [discriminate|].
  intros _. cbn [fst set_page content libFile studFile studentsList librariansList].
  rewrite ?H1, ?H2, ?H3, ?H4. reflexivity.
Qed.

Lemma regenerateListFiles_twice_witness :
  snd (regenerateListFiles (calmOracle "-") aliceWorld) = Some tt
  /\ regenerateListFiles (calmOracle "-")
       (fst (regenerateListFiles (calmOracle "-") aliceWorld))
     = (fst (regenerateListFiles (calmOracle "-") aliceWorld), Some tt).
Proof.
  split; [reflexivity|].
  exact (regenerateListFiles_twice (calmOracle "-") aliceWorld eq_refl).
Defined.

(** ** The register handlers, case by case *)

Lemma librarian_register_run (P : Platform) (o : Oracle) (b : LibrarianBody) (w : World) :
  ensureFiles o w = (ensured w, Some tt) ->
  librarian_register P o b w
  = if negb (librarianBodyValid P b) then (ensured w, Some (status_json 400 ErrorsBody))
    else if fails o (ReadJson LIB_FILE) then (ensured w, None)
    else match find (sameUsername P (username b)) (stored LIB_FILE w) with
         | Some _ => (ensured w, Some DuplicateLibrarian)
         | None =>
             if fails o (WriteJson LIB_FILE) then (ensured w, None)
             else
               let w2 := set_content LIB_FILE
                           (stored LIB_FILE w ++ [newLibrarian P o b])%list (ensured w) in
               (fst (regenerateListFiles o w2),
                match snd (regenerateListFiles o w2) with
                | Some _ =>
                    Some (json (UserBody (LibrarianProfile (uuid o) (Some (username b))
                                            (Some (fullname b)))))
                | None => None
                end)
         end.
Proof.
  intros E. unfold librarian_register. rewrite (bind_some _ E).
  destruct (librarianBodyValid P b); cbn [negb]; [|reflexivity].
  unfold bind at 1, readJson, fs.
  destruct (fails o (ReadJson LIB_FILE)); [reflexivity|].
  rewrite content_ensured.
  destruct (find (sameUsername P (username b)) (stored LIB_FILE w)); [reflexivity|].
  unfold bind at 1, writeJson, fs.
  destruct (fails o (WriteJson LIB_FILE)); [reflexivity|].
  rewrite then_respond. reflexivity.
Qed.

Lemma student_register_run (P : Platform) (o : Oracle) (b : StudentBody) (w : World) :
  ensureFiles o w = (ensured w, Some tt) ->
  student_register P o b w
  = if negb (studentBodyValid P b) then (ensured w, Some (status_json 400 ErrorsBody))
    else if fails o (ReadJson STUD_FILE) then (ensured w, None)
    else match find (sameStudent P (name b) (grade b) (section b)) (stored STUD_FILE w) with
         | Some _ => (ensured w, Some DuplicateStudent)
         | None =>
             if fails o (WriteJson STUD_FILE) then (ensured w, None)
             else
               let w2 := set_content STUD_FILE
                           (stored STUD_FILE w ++ [newStudent P o b])%list (ensured w) in
               (fst (regenerateListFiles o w2),
                match snd (regenerateListFiles o w2) with
                | Some _ =>
                    Some (json (UserBody (StudentProfile (uuid o) (Some (name b))
                                            (Some (grade b)) (Some (section b)))))
                | None => None
                end)
         end.
Proof.
  intros E. unfold student_register. rewrite (bind_some _ E).
  destruct (studentBodyValid P b); cbn [negb]; [|reflexivity].
  unfold bind at 1, readJson, fs.
  destruct (fails o (ReadJson STUD_FILE)); [reflexivity|].
  rewrite content_ensured.
  destruct (find (sameStudent P (name b) (grade b) (section b)) (stored STUD_FILE w));
    [reflexivity|].
  unfold bind at 1, writeJson, fs.
  destruct (fails o (WriteJson STUD_FILE)); [reflexivity|].
  rewrite then_respond. reflexivity.
Qed.





(** X15: validation is checked before uniqueness.  With no file-system call
    failing, a body that fails validation is answered 400 and no record or
    page is written, also when its key is already taken. *)
Theorem register_invalid_body (P : Platform) (o : Oracle) (w : World) :
  no_faults o ->
  (forall b, librarianBodyValid P b = false ->
     librarian_register P o b w = (ensured w, Some (status_json 400 ErrorsBody)))
  /\ (forall b, studentBodyValid P b = false ->
        student_register P o b w = (ensured w, Some (status_json 400 ErrorsBody))).
Proof.
  intros Hnf. split; intros b Hv.
  - rewrite (librarian_register_run P o b w (ensureFiles_no_faults o w Hnf)).
    now rewrite Hv.
  - rewrite (student_register_run P o b w (ensureFiles_no_faults o w Hnf)).
    now rewrite Hv.
Qed.

Lemma register_invalid_body_witness :
  no_faults (calmOracle "id-9")
  /\ In alice (stored LIB_FILE aliceWorld)
  /\ l_username alice = username registerAliceWeak
  /\ librarian_register demoPlatform (calmOracle "id-9") registerAliceWeak aliceWorld
     = (ensured aliceWorld, Some (status_json 400 ErrorsBody))
  /\ student_register demoPlatform (calmOracle "id-9") registerBobWeak aliceWorld
     = (ensured aliceWorld, Some (status_json 400 ErrorsBody)).
Proof.
  destruct (register_invalid_body demoPlatform (calmOracle "id-9") aliceWorld
              (calm_no_faults "id-9")) as (Hl & Hs).
  split; [apply calm_no_faults|]. split; [left; reflexivity|]. split; [reflexivity|].
  split; [exact (Hl registerAliceWeak eq_refl) | exact (Hs registerBobWeak eq_refl)].
Defined.


(** X17: the ids of a file stay pairwise distinct through a registration,
    whatever fails, provided the id [uuidv4()] returns is not one the file
    already holds; the handler itself never compares ids. *)
Theorem register_keeps_ids_distinct (P : Platform) (o : Oracle) (w : World) :
  (forall b, NoDup (ids LIB_FILE w) -> ~ In (uuid o) (ids LIB_FILE w) ->
     NoDup (ids LIB_FILE (fst (librarian_register P o b w))))
  /\ (forall b, NoDup (ids STUD_FILE w) -> ~ In (uuid o) (ids STUD_FILE w) ->
        NoDup (ids STUD_FILE (fst (student_register P o b w)))).
Proof.
  split; intros b Hnd Hfresh; unfold ids in *.
  - destruct (librarian_register_files P o b w) as ([-> | (_ & ->)] & _);
      [exact Hnd|].
    rewrite map_app. cbn [map]. now apply NoDup_snoc.
  - destruct (student_register_files P o b w) as ([-> | (_ & ->)] & _);
      [exact Hnd|].
    rewrite map_app. cbn [map]. now apply NoDup_snoc.
Qed.

Lemma register_keeps_ids_distinct_witness :
  NoDup (ids LIB_FILE aliceWorld)
  /\ NoDup (ids LIB_FILE (fst (librarian_register demoPlatform (calmOracle "id-3")
                                 registerCarol aliceWorld)))
  /\ NoDup (ids STUD_FILE (fst (student_register demoPlatform (calmOracle "id-4")
                                  registerBob10a aliceWorld))).
Proof.
  assert (Hl : NoDup (ids LIB_FILE aliceWorld))
    by (repeat constructor; intros []).
  assert (Hs : NoDup (ids STUD_FILE aliceWorld))
    by (repeat constructor; intros []).
  split; [exact Hl|]. split.
  - apply (proj1 (register_keeps_ids_distinct demoPlatform (calmOracle "id-3")
                    aliceWorld) registerCarol Hl).
    intros [H|[]]. vm_compute in H. discriminate.
  - apply (proj2 (register_keeps_ids_distinct demoPlatform (calmOracle "id-4")
                    aliceWorld) registerBob10a Hs).
    intros [H|[]]. vm_compute in H. discriminate.
Defined.

(** ** The login and profile handlers *)

Lemma librarian_login_files (P : Platform) (o : Oracle) (b : LibrarianLogin) (w : World) :
  fst (librarian_login P o b w) = fst (ensureFiles o w).
Proof.
  unfold librarian_login, bind, readJson, fs.
  destruct (ensureFiles o w) as [w1 [[]|]]; [|reflexivity]. cbn [fst].
  destruct (fails o (ReadJson LIB_FILE)); [reflexivity|].
  destruct (content LIB_FILE w1) as [libs|]; [|reflexivity].
  match goal with |- context [find ?p ?l] => destruct (find p l) end; [|reflexivity].
  match goal with |- context [bcrypt_compare P ?d ?h] =>
    destruct (bcrypt_compare P d h) as [[|]|] end; reflexivity.
Qed.

Lemma student_login_files (P : Platform) (o : Oracle) (b : StudentLogin) (w : World) :
  fst (student_login P o b w) = fst (ensureFiles o w).
Proof.
  unfold student_login, bind, readJson, fs.
  destruct (ensureFiles o w) as [w1 [[]|]]; [|reflexivity]. cbn [fst].
  destruct (fails o (ReadJson STUD_FILE)); [reflexivity|].
  destruct (content STUD_FILE w1) as [studs|]; [|reflexivity].
  match goal with |- context [find ?p ?l] => destruct (find p l) end; [|reflexivity].
  destruct (login_passcode b) as [pc|]; [|reflexivity].
  destruct (truthy pc); [|reflexivity].
  match goal with |- context [bcrypt_compare P ?d ?h] =>
    destruct (bcrypt_compare P d h) as [[|]|] end; reflexivity.
Qed.

Lemma profile_files (o : Oracle) (role id : string) (w : World) :
  fst (profile o role id w) = fst (ensureFiles o w).
Proof.
  unfold profile, bind, readJson, fs.
  destruct (ensureFiles o w) as [w1 [[]|]]; [|reflexivity]. cbn [fst].
  destruct (String.eqb role "librarian").
  - destruct (fails o (ReadJson LIB_FILE)); [reflexivity|].
    destruct (content LIB_FILE w1) as [l|]; [|reflexivity].
    match goal with |- context [find ?p ?l] => destruct (find p l) end; reflexivity.
  - destruct (fails o (ReadJson STUD_FILE)); [reflexivity|].
    destruct (content STUD_FILE w1) as [l|]; [|reflexivity].
    match goal with |- context [find ?p ?l] => destruct (find p l) end; reflexivity.
Qed.

Lemma ensureFiles_unchanged (o : Oracle) (w : World) :
  unchanged w (fst (ensureFiles o w)).
Proof.
  unfold unchanged.
  destruct (ensureFiles_cases o w) as [(w1 & E & H1 & H2 & _ & _ & H3 & H4)|E];
    rewrite E; cbn [fst]; [auto|].
  rewrite !stored_ensured. repeat split.
Qed.


(** X19: the librarian login handler answers 200 only with the profile of a
    stored librarian whose username equals the given one up to case and
    whose hash bcrypt accepted for the given password; every other answer it
    gives is 401 "Invalid credentials". *)
Theorem librarian_login_answers
    (P : Platform) (o : Oracle) (b : LibrarianLogin) (w : World) (resp : Response) :
  snd (librarian_login P o b w) = Some resp ->
  resp = InvalidCredentials
  \/ exists user,
       In user (stored LIB_FILE w)
       /\ toLowerCase P (l_username user) = toLowerCase P (given (login_username b))
       /\ bcrypt_compare P (login_password b) (l_passwordHash user) = Some true
       /\ resp = json (UserBody (LibrarianProfile (l_id user) (Some (l_username user))
                                   (Some (l_fullname user)))).
Proof.
  intros H.
  destruct (ensureFiles_cases o w) as [(w1 & E & _)|E];
    unfold librarian_login in H.
  { rewrite (bind_none _ E) in H. discriminate. }
  rewrite (bind_some _ E) in H. unfold bind at 1, readJson, fs in H.
  destruct (fails o (ReadJson LIB_FILE)); [discriminate|].
  rewrite content_ensured in H. fold (given (login_username b)) in H.
  rewrite or_else_empty in H.
  destruct (find _ _) as [user|] eqn:Hf; [|left; now injection H as <-].
  destruct (find_some _ _ Hf) as (Hin & Hsame).
  unfold sameUsername in Hsame. apply String.eqb_eq in Hsame.
  destruct (bcrypt_compare P _ _) as [[|]|] eqn:Hc; [| |discriminate].
  - right. exists user. cbn [negb ret snd] in H. injection H as <-.
    repeat split; assumption.
  - left. now injection H as <-.
Qed.

Lemma librarian_login_answers_witness :
  snd (librarian_login demoPlatform (calmOracle "-") (loginAlice "Secret123") aliceWorld)
  = Some (json (UserBody (LibrarianProfile "id-1" (Some "alice") (Some "Alice A"))))
  /\ bcrypt_compare demoPlatform (Some "Secret123") (l_passwordHash alice) = Some true.
Proof.
  assert (H : snd (librarian_login demoPlatform (calmOracle "-") (loginAlice "Secret123")
                     aliceWorld)
              = Some (json (UserBody (LibrarianProfile "id-1" (Some "alice")
                                        (Some "Alice A"))))) by reflexivity.
  split; [exact H|].
  destruct (librarian_login_answers demoPlatform (calmOracle "-") (loginAlice "Secret123")
              aliceWorld _ H) as [Hr | (user & Hin & _ & Hc & _)]; [discriminate Hr|].
  destruct Hin as [<-|[]]. exact Hc.
Defined.

Ltac student_found user Hin Hn Hs :=
  right; exists user;
  split; [exact Hin|]; split; [exact Hn|]; split; [reflexivity|];
  split; [exact Hs|]; split; [|reflexivity].

(** X20: the student login handler answers 200 only with the profile of a
    stored student matching the given name and section up to case and the
    given grade exactly, and only when the request carries no passcode, an
    empty one, or one bcrypt accepted for that student's hash; every other
    answer it gives is 401 "Invalid credentials". *)
Theorem student_login_answers
    (P : Platform) (o : Oracle) (b : StudentLogin) (w : World) (resp : Response) :
  snd (student_login P o b w) = Some resp ->
  resp = InvalidCredentials
  \/ exists user,
       In user (stored STUD_FILE w)
       /\ toLowerCase P (s_name user) = toLowerCase P (given (login_name b))
       /\ login_grade b = Some (s_grade user)
       /\ toLowerCase P (s_section user) = toLowerCase P (given (login_section b))
       /\ (login_passcode b = None \/ login_passcode b = Some ""
           \/ exists pc, login_passcode b = Some pc
                         /\ bcrypt_compare P (Some pc) (s_passHash user) = Some true)
       /\ resp = json (UserBody (StudentProfile (s_id user) (Some (s_name user))
                                   (Some (s_grade user)) (Some (s_section user)))).
Proof.
  intros H.
  destruct (ensureFiles_cases o w) as [(w1 & E & _)|E];
    unfold student_login in H.
  { rewrite (bind_none _ E) in H. discriminate. }
  rewrite (bind_some _ E) in H. unfold bind at 1, readJson, fs in H.
  destruct (fails o (ReadJson STUD_FILE)); [discriminate|].
  rewrite content_ensured in H.
  destruct (find _ _) as [user|] eqn:Hf; [|left; now injection H as <-].
  destruct (find_some _ _ Hf) as (Hin & Hsame).
  unfold sameStudentLogin in Hsame.
  fold (given (login_name b)) in Hsame. fold (given (login_section b)) in Hsame.
  rewrite !or_else_empty in Hsame.
  apply andb_true_iff in Hsame. destruct Hsame as [Hsame Hs].
  apply andb_true_iff in Hsame. destruct Hsame as [Hn Hg].
  apply String.eqb_eq in Hn, Hs.
  destruct (login_grade b) as [g|]; [|discriminate].
  apply String.eqb_eq in Hg. subst g.
  unfold bind, ret in H.
  destruct (login_passcode b) as [pc|].
  2:{ cbn [negb snd] in H. injection H as <-. student_found user Hin Hn Hs.
      now left. }
  unfold truthy in H. destruct (String.eqb pc "") eqn:Hpc; cbn [negb] in H.
  { apply String.eqb_eq in Hpc. rewrite Hpc.
    cbn [negb snd] in H. injection H as <-. student_found user Hin Hn Hs.
    right. now left. }
  destruct (bcrypt_compare P (Some pc) (s_passHash user)) as [[|]|] eqn:Hc;
    [| |discriminate].
  - cbn [negb snd] in H. injection H as <-. student_found user Hin Hn Hs.
    right. right. exists pc. now split.
  - left. cbn [negb snd] in H. now injection H as <-.
Qed.

Lemma student_login_answers_witness :
  snd (student_login demoPlatform (calmOracle "-") (loginBob (Some "1234")) aliceWorld)
  = Some (json (UserBody (StudentProfile "id-2" (Some "Bob Cruz") (Some "10A")
                            (Some "Rizal"))))
  /\ (exists user, In user (stored STUD_FILE aliceWorld)
                   /\ login_grade (loginBob (Some "1234")) = Some (s_grade user)).
Proof.
  assert (H : snd (student_login demoPlatform (calmOracle "-") (loginBob (Some "1234"))
                     aliceWorld)
              = Some (json (UserBody (StudentProfile "id-2" (Some "Bob Cruz") (Some "10A")
                                        (Some "Rizal"))))) by reflexivity.
  split; [exact H|].
  destruct (student_login_answers demoPlatform (calmOracle "-") (loginBob (Some "1234"))
              aliceWorld _ H) as [Hr | (user & Hin & _ & Hg & _)]; [discriminate Hr|].
  exists user. split; assumption.
Defined.

(** X21: a student login that carries no grade is answered 401 "Invalid
    credentials" whatever else it carries and whoever is stored, when no
    file-system call fails: [s.grade === undefined] holds of no record. *)
Theorem student_login_without_grade
    (P : Platform) (o : Oracle) (b : StudentLogin) (w : World) :
  no_faults o -> login_grade b = None ->
  snd (student_login P o b w) = Some InvalidCredentials.
Proof.
  intros Hnf Hg. rewrite (student_login_no_faults P o b w Hnf).
  rewrite find_nobody; [reflexivity|].
  intros s _. unfold sameStudentLogin. rewrite Hg.
  now rewrite andb_false_r.
Qed.

Lemma student_login_without_grade_witness :
  no_faults (calmOracle "-") /\ login_grade loginBobNoGrade = None
  /\ snd (student_login demoPlatform (calmOracle "-") loginBobNoGrade aliceWorld)
     = Some InvalidCredentials.
Proof.
  split; [apply calm_no_faults|]. split; [reflexivity|].
  exact (student_login_without_grade demoPlatform (calmOracle "-") loginBobNoGrade
           aliceWorld (calm_no_faults "-") eq_refl).
Defined.

(** X22: the profile handler answers 200 only with the profile of a record
    of the file it searched (the librarian file for the role "librarian",
    the student file for every other role) whose id is the id asked for.
    With no file-system call failing it answers 200 when that file holds the
    id and 404 "Not found" when it does not. *)
Theorem profile_lookup (o : Oracle) (role id : string) (w : World) :
  (forall u, snd (profile o role id w) = Some (json (UserBody u)) ->
     profile_id u = id
     /\ if String.eqb role "librarian"
        then exists l, In l (stored LIB_FILE w) /\ l_id l = id
                       /\ u = LibrarianProfile (l_id l) (Some (l_username l))
                                (Some (l_fullname l))
        else exists s, In s (stored STUD_FILE w) /\ s_id s = id
                       /\ u = StudentProfile (s_id s) (Some (s_name s))
                                (Some (s_grade s)) (Some (s_section s)))
  /\ (no_faults o ->
      (In id (ids (if String.eqb role "librarian" then LIB_FILE else STUD_FILE) w) ->
       exists u, snd (profile o role id w) = Some (json (UserBody u)))
      /\ (~ In id (ids (if String.eqb role "librarian" then LIB_FILE else STUD_FILE) w) ->
          snd (profile o role id w) = Some NotFound)).
Proof.
  split.
  - intros u H.
    destruct (ensureFiles_cases o w) as [(w1 & E & _)|E]; unfold profile in H.
    { rewrite (bind_none _ E) in H. discriminate. }
    rewrite (bind_some _ E) in H. cbv zeta in H. unfold sanitizeUser in H.
    destruct (String.eqb role "librarian") eqn:Hrole.
    + unfold bind at 1, readJson, fs in H.
      destruct (fails o (ReadJson LIB_FILE)); [discriminate|].
      rewrite content_ensured in H. cbn [as_user] in H. rewrite find_map_lib in H.
      destruct (find _ _) as [l|] eqn:Hf; [|discriminate].
      destruct (find_some _ _ Hf) as (Hin & Hid). apply String.eqb_eq in Hid.
      cbn [option_map ret snd user_id user_username user_fullname] in H.
      unfold json in H. injection H as <-. cbn [profile_id].
      split; [exact Hid|]. exists l. repeat split; assumption.
    + unfold bind at 1, readJson, fs in H.
      destruct (fails o (ReadJson STUD_FILE)); [discriminate|].
      rewrite content_ensured in H. cbn [as_user] in H. rewrite find_map_stud in H.
      destruct (find _ _) as [s|] eqn:Hf; [|discriminate].
      destruct (find_some _ _ Hf) as (Hin & Hid). apply String.eqb_eq in Hid.
      cbn [option_map ret snd user_id user_name user_grade user_section] in H.
      unfold json in H. injection H as <-. cbn [profile_id].
      split; [exact Hid|]. exists s. repeat split; assumption.
  - intros Hnf. rewrite (profile_no_faults o role id w Hnf). cbv zeta.
    unfold ids. destruct (String.eqb role "librarian"); cbn [as_user].
    + rewrite find_map_lib. split.
      * intros Hin. apply in_map_iff in Hin. destruct Hin as (l & Hid & Hin).
        cbn [user_id] in Hid.
        destruct (find_first (fun s => String.eqb (l_id s) id) _ l Hin) as (x & -> & _).
        { now apply String.eqb_eq. }
        cbn [option_map]. eexists. reflexivity.
      * intros Hnot. rewrite find_nobody; [reflexivity|].
        intros l Hin. apply String.eqb_neq. intros Hid. apply Hnot.
        apply in_map_iff. exists l. now split.
    + rewrite find_map_stud. split.
      * intros Hin. apply in_map_iff in Hin. destruct Hin as (s & Hid & Hin).
        cbn [user_id] in Hid.
        destruct (find_first (fun s => String.eqb (s_id s) id) _ s Hin) as (x & -> & _).
        { now apply String.eqb_eq. }
        cbn [option_map]. eexists. reflexivity.
      * intros Hnot. rewrite find_nobody; [reflexivity|].
        intros s Hin. apply String.eqb_neq. intros Hid. apply Hnot.
        apply in_map_iff. exists s. now split.
Qed.

(** ** One request after another *)

(** X23: what was just registered can log in.  After a valid registration
    that collides with nothing, with no file-system call failing, a login
    with the same key and the same secret is answered 200 with the new
    profile, given that bcrypt accepts the secret for the digest it made of
    it. *)
Theorem login_after_register (P : Platform) (o o' : Oracle) :
  no_faults o -> no_faults o' ->
  (forall b w,
     librarianBodyValid P b = true ->
     (forall l, In l (stored LIB_FILE w) ->
        toLowerCase P (l_username l) <> toLowerCase P (username b)) ->
     bcrypt_compare P (Some (password b)) (bcrypt_hash P (salt o) (password b))
     = Some true ->
     snd (librarian_login P o'
            {| login_username := Some (username b);
               login_password := Some (password b) |}
            (fst (librarian_register P o b w)))
     = Some (json (UserBody (LibrarianProfile (uuid o) (Some (username b))
                               (Some (fullname b))))))
  /\ (forall b w,
        studentBodyValid P b = true ->
        (forall s, In s (stored STUD_FILE w) ->
           studentKey P s
           <> (toLowerCase P (name b), grade b, toLowerCase P (section b))) ->
        bcrypt_compare P (Some (passcode b)) (bcrypt_hash P (salt o) (passcode b))
        = Some true ->
        snd (student_login P o'
               {| login_name := Some (name b); login_grade := Some (grade b);
                  login_section := Some (section b);
                  login_passcode := Some (passcode b) |}
               (fst (student_register P o b w)))
        = Some (json (UserBody (StudentProfile (uuid o) (Some (name b))
                                  (Some (grade b)) (Some (section b)))))).
Proof.
  intros Hnf Hnf'. split; intros b w Hv Hnone Hc.
  - assert (Hf : find (sameUsername P (username b)) (stored LIB_FILE w) = None).
    { apply find_nobody. intros l Hin. unfold sameUsername.
      apply String.eqb_neq. now apply Hnone. }
    rewrite (librarian_register_ok P o b w Hnf Hv Hf). cbn [fst].
    rewrite (librarian_login_no_faults P o' _ _ Hnf'). cbn [login_username given].
    change (stored LIB_FILE (afterLibrarian o w (newLibrarian P o b)))
      with (stored LIB_FILE w ++ [newLibrarian P o b])%list.
    rewrite (find_last _ _ _ Hf).
    + cbn [login_password newLibrarian l_passwordHash]. now rewrite Hc.
    + unfold sameUsername. apply String.eqb_refl.
  - assert (Hf : find (sameStudent P (name b) (grade b) (section b))
                   (stored STUD_FILE w) = None).
    { apply find_nobody. intros s Hin. unfold sameStudent.
      destruct (String.eqb_spec (toLowerCase P (s_name s)) (toLowerCase P (name b)))
        as [Hn|]; [|reflexivity].
      destruct (String.eqb_spec (s_grade s) (grade b)) as [Hg|]; [|reflexivity].
      destruct (String.eqb_spec (toLowerCase P (s_section s))
                  (toLowerCase P (section b))) as [Hs|]; [|reflexivity].
      exfalso. apply (Hnone s Hin). unfold studentKey. now rewrite Hn, Hg, Hs. }
    rewrite (student_register_ok P o b w Hnf Hv Hf). cbn [fst].
    rewrite (student_login_no_faults P o' _ _ Hnf').
    change (stored STUD_FILE (afterStudent o w (newStudent P o b)))
      with (stored STUD_FILE w ++ [newStudent P o b])%list.
    assert (Hfind : forall l,
              find (sameStudent P (name b) (grade b) (section b)) l
              = find (sameStudentLogin P
                        {| login_name := Some (name b); login_grade := Some (grade b);
                           login_section := Some (section b);
                           login_passcode := Some (passcode b) |}) l).
    { intros l. induction l as [|s l IH]; [reflexivity|]. cbn [find]. rewrite IH.
      unfold sameStudent, sameStudentLogin.
      cbn [login_name login_grade login_section]. now rewrite !or_else_empty. }
    rewrite <- Hfind, (find_last _ _ _ Hf).
    + cbn [login_passcode newStudent s_passHash]. rewrite Hc.
      now destruct (String.eqb (passcode b) "").
    + unfold sameStudent. cbn [newStudent s_name s_grade s_section].
      now rewrite !String.eqb_refl.
Qed.

Lemma login_after_register_witness :
  no_faults (calmOracle "id-3") /\ no_faults (calmOracle "-")
  /\ librarianBodyValid demoPlatform registerCarol = true
  /\ snd (librarian_login demoPlatform (calmOracle "-")
            {| login_username := Some "carol"; login_password := Some "Passw0rd9" |}
            (fst (librarian_register demoPlatform (calmOracle "id-3") registerCarol
                    aliceWorld)))
     = Some (json (UserBody (LibrarianProfile "id-3" (Some "carol") (Some "Carol C"))))
  /\ snd (student_login demoPlatform (calmOracle "-")
            {| login_name := Some "Bob Cruz"; login_grade := Some "10a";
               login_section := Some "Rizal"; login_passcode := Some "1234" |}
            (fst (student_register demoPlatform (calmOracle "id-3") registerBob10a
                    aliceWorld)))
     = Some (json (UserBody (StudentProfile "id-3" (Some "Bob Cruz") (Some "10a")
                               (Some "Rizal")))).
Proof.
  destruct (login_after_register demoPlatform (calmOracle "id-3") (calmOracle "-")
              (calm_no_faults "id-3") (calm_no_faults "-")) as (Hl & Hs).
  split; [apply calm_no_faults|]. split; [apply calm_no_faults|].
  split; [reflexivity|]. split.
  - apply (Hl registerCarol aliceWorld eq_refl); [|reflexivity].
    intros l [<-|[]]. vm_compute. discriminate.
  - apply (Hs registerBob10a aliceWorld eq_refl); [|reflexivity].
    intros s [<-|[]]. vm_compute. discriminate.
Defined.

(** X24: a key that has just been registered is taken.  After a
    registration answered 200, a second valid registration with the same key
    up to case (for a student, the same grade exactly), with no file-system
    call failing, is answered 409 and leaves the files and pages exactly as
    the first left them. *)
Theorem register_again_refused (P : Platform) (o o2 : Oracle) :
  no_faults o2 ->
  (forall b b2 w u,
     snd (librarian_register P o b w) = Some (json (UserBody u)) ->
     librarianBodyValid P b2 = true ->
     toLowerCase P (username b2) = toLowerCase P (username b) ->
     librarian_register P o2 b2 (fst (librarian_register P o b w))
     = (fst (librarian_register P o b w), Some DuplicateLibrarian))
  /\ (forall b b2 w u,
        snd (student_register P o b w) = Some (json (UserBody u)) ->
        studentBodyValid P b2 = true ->
        toLowerCase P (name b2) = toLowerCase P (name b) ->
        grade b2 = grade b ->
        toLowerCase P (section b2) = toLowerCase P (section b) ->
        student_register P o2 b2 (fst (student_register P o b w))
        = (fst (student_register P o b w), Some DuplicateStudent)).
Proof.
  intros Hnf. split.
  - intros b b2 w u H Hv Hkey.
    destruct (librarian_register_success P o b w u H) as (_ & -> & _).
    rewrite (librarian_register_run P o2 b2 _ (ensureFiles_no_faults o2 _ Hnf)).
    rewrite Hv, (Hnf (ReadJson LIB_FILE)). cbn [negb].
    destruct (find_first (sameUsername P (username b2))
                (stored LIB_FILE (afterLibrarian o w (newLibrarian P o b)))
                (newLibrarian P o b)) as (x & -> & _).
    + change (stored LIB_FILE (afterLibrarian o w (newLibrarian P o b)))
        with (stored LIB_FILE w ++ [newLibrarian P o b])%list.
      apply in_or_app. right. now left.
    + unfold sameUsername. cbn [newLibrarian l_username]. rewrite Hkey.
      apply String.eqb_refl.
    + reflexivity.
  - intros b b2 w u H Hv Hn Hg Hs.
    destruct (student_register_success P o b w u H) as (_ & -> & _).
    rewrite (student_register_run P o2 b2 _ (ensureFiles_no_faults o2 _ Hnf)).
    rewrite Hv, (Hnf (ReadJson STUD_FILE)). cbn [negb].
    destruct (find_first (sameStudent P (name b2) (grade b2) (section b2))
                (stored STUD_FILE (afterStudent o w (newStudent P o b)))
                (newStudent P o b)) as (x & -> & _).
    + change (stored STUD_FILE (afterStudent o w (newStudent P o b)))
        with (stored STUD_FILE w ++ [newStudent P o b])%list.
      apply in_or_app. right. now left.
    + unfold sameStudent. cbn [newStudent s_name s_grade s_section].
      now rewrite Hn, Hg, Hs, !String.eqb_refl.
    + reflexivity.
Qed.

Lemma register_again_refused_witness :
  no_faults (calmOracle "id-5")
  /\ snd (librarian_register demoPlatform (calmOracle "id-3") registerCarol freshWorld)
     = Some (json (UserBody (LibrarianProfile "id-3" (Some "carol") (Some "Carol C"))))
  /\ snd (librarian_register demoPlatform (calmOracle "id-5")
            {| username := "CAROL"; fullname := "Carol Again"; password := "Passw0rd9" |}
            (fst (librarian_register demoPlatform (calmOracle "id-3") registerCarol
                    freshWorld)))
     = Some DuplicateLibrarian.
Proof.
  assert (H : snd (librarian_register demoPlatform (calmOracle "id-3") registerCarol
                     freshWorld)
              = Some (json (UserBody (LibrarianProfile "id-3" (Some "carol")
                                        (Some "Carol C")))))
    by (vm_compute; reflexivity).
  split; [apply calm_no_faults|]. split; [exact H|].
  rewrite (proj1 (register_again_refused demoPlatform (calmOracle "id-3")
                    (calmOracle "id-5") (calm_no_faults "id-5"))
             registerCarol
             {| username := "CAROL"; fullname := "Carol Again"; password := "Passw0rd9" |}
             freshWorld _ H eq_refl eq_refl).
  reflexivity.
Defined.

Lemma unchanged_stored (w w' : World) :
  unchanged w w' ->
  stored LIB_FILE w' = stored LIB_FILE w /\ stored STUD_FILE w' = stored STUD_FILE w.
Proof. intros (H1 & H2 & _). now split. Qed.

Lemma handle_keeps_distinct (P : Platform) (o : Oracle) (req : Request) (w : World) :
  usernames_distinct P (stored LIB_FILE w) ->
  students_distinct P (stored STUD_FILE w) ->
  usernames_distinct P (stored LIB_FILE (fst (handle P o req w)))
  /\ students_distinct P (stored STUD_FILE (fst (handle P o req w))).
Proof.
  intros Hl Hs. destruct req as [b|b|b|b|role id]; cbn [handle].
  - split; [now apply librarian_register_keeps_distinct|].
    destruct (librarian_register_files P o b w) as (_ & ->). exact Hs.
  - rewrite librarian_login_files.
    destruct (unchanged_stored _ _ (ensureFiles_unchanged o w)) as (-> & ->).
    now split.
  - split; [|now apply student_register_keeps_distinct].
    destruct (student_register_files P o b w) as (_ & ->). exact Hl.
  - rewrite student_login_files.
    destruct (unchanged_stored _ _ (ensureFiles_unchanged o w)) as (-> & ->).
    now split.
  - rewrite profile_files.
    destruct (unchanged_stored _ _ (ensureFiles_unchanged o w)) as (-> & ->).
    now split.
Qed.




(** X25: served one after another, no run of register, login and profile
    requests breaks the uniqueness of stored keys, whatever each request
    carries and whichever file-system calls fail along the way: librarian
    usernames stay pairwise distinct up to case, and students pairwise
    distinct on name and section up to case and grade exactly. *)
Theorem serve_keeps_keys_distinct
    (P : Platform) (reqs : list (Oracle * Request)) (w : World) :
  usernames_distinct P (stored LIB_FILE w) ->
  students_distinct P (stored STUD_FILE w) ->
  usernames_distinct P (stored LIB_FILE (serve P reqs w))
  /\ students_distinct P (stored STUD_FILE (serve P reqs w)).
Proof.
  revert w. induction reqs as [|[o req] reqs IH]; intros w Hl Hs; cbn [serve].
  - now split.
  - destruct (handle_keeps_distinct P o req w Hl Hs) as (Hl' & Hs').
    now apply IH.
Qed.

Lemma serve_keeps_keys_distinct_witness :
  usernames_distinct demoPlatform (stored LIB_FILE freshWorld)
  /\ students_distinct demoPlatform (stored STUD_FILE freshWorld)
  /\ usernames_distinct demoPlatform
       (stored LIB_FILE (serve demoPlatform demoTrace freshWorld))
  /\ students_distinct demoPlatform
       (stored STUD_FILE (serve demoPlatform demoTrace freshWorld))
  /\ length (stored LIB_FILE (serve demoPlatform demoTrace freshWorld)) = 1
  /\ length (stored STUD_FILE (serve demoPlatform demoTrace freshWorld)) = 1.
Proof.
  assert (Hl : usernames_distinct demoPlatform (stored LIB_FILE freshWorld))
    by constructor.
  assert (Hs : students_distinct demoPlatform (stored STUD_FILE freshWorld))
    by constructor.
  destruct (serve_keeps_keys_distinct demoPlatform demoTrace freshWorld Hl Hs)
    as (Hl' & Hs').
  split; [exact Hl|]. split; [exact Hs|]. split; [exact Hl'|]. split; [exact Hs'|].
  split; vm_compute; reflexivity.
Defined.



(** X28: a registration left unanswered has still registered.  When the
    record files can be read and written but a page write fails, a valid
    registration colliding with nothing is not answered; the same body sent
    again, with nothing failing, is answered 409: the account exists. *)
Theorem register_unanswered_then_refused (P : Platform) (o o2 : Oracle) :
  store_ok o -> render_fails o -> no_faults o2 ->
  (forall b w,
     librarianBodyValid P b = true ->
     (forall l, In l (stored LIB_FILE w) ->
        toLowerCase P (l_username l) <> toLowerCase P (username b)) ->
     snd (librarian_register P o b w) = None
     /\ snd (librarian_register P o2 b (fst (librarian_register P o b w)))
        = Some DuplicateLibrarian)
  /\ (forall b w,
        studentBodyValid P b = true ->
        (forall s, In s (stored STUD_FILE w) ->
           studentKey P s
           <> (toLowerCase P (name b), grade b, toLowerCase P (section b))) ->
        snd (student_register P o b w) = None
        /\ snd (student_register P o2 b (fst (student_register P o b w)))
           = Some DuplicateStudent).
Proof.
  intros Hstore Hrender Hnf.
  pose proof Hstore as (_ & _ & Hread & Hwrite).
  split; intros b w Hv Hnone.
  - assert (Hf : find (sameUsername P (username b)) (stored LIB_FILE w) = None).
    { apply find_nobody. intros l Hin. unfold sameUsername.
      apply String.eqb_neq. now apply Hnone. }
    assert (Hrun : snd (librarian_register P o b w) = None
                   /\ stored LIB_FILE (fst (librarian_register P o b w))
                      = (stored LIB_FILE w ++ [newLibrarian P o b])%list).
    { rewrite (librarian_register_tail P o b w (ensureFiles_store_ok o w Hstore) Hv
                 (Hread _) (Hwrite _) Hf).
      cbv zeta. cbn [fst snd]. rewrite (regenerateListFiles_fails o _ Hrender).
      split; [reflexivity|].
      destruct (regenerateListFiles_run o
                  (set_content LIB_FILE (stored LIB_FILE w ++ [newLibrarian P o b])%list
                     (ensured w))) as (Hl & _).
      now rewrite (stored_same_content LIB_FILE _ _ Hl). }
    destruct Hrun as (Hnone' & Hstored). split; [exact Hnone'|].
    apply (librarian_register_collision P o2 b _ (newLibrarian P o b)); auto.
    + rewrite Hstored. apply in_or_app. right. now left.
    + unfold sameUsername. apply String.eqb_refl.
  - assert (Hf : find (sameStudent P (name b) (grade b) (section b))
                   (stored STUD_FILE w) = None).
    { apply find_nobody. intros s Hin. unfold sameStudent.
      destruct (String.eqb_spec (toLowerCase P (s_name s)) (toLowerCase P (name b)))
        as [Hn|]; [|reflexivity].
      destruct (String.eqb_spec (s_grade s) (grade b)) as [Hg|]; [|reflexivity].
      destruct (String.eqb_spec (toLowerCase P (s_section s))
                  (toLowerCase P (section b))) as [Hs|]; [|reflexivity].
      exfalso. apply (Hnone s Hin). unfold studentKey. now rewrite Hn, Hg, Hs. }
    assert (Hrun : snd (student_register P o b w) = None
                   /\ stored STUD_FILE (fst (student_register P o b w))
                      = (stored STUD_FILE w ++ [newStudent P o b])%list).
    { rewrite (student_register_tail P o b w (ensureFiles_store_ok o w Hstore) Hv
                 (Hread _) (Hwrite _) Hf).
      cbv zeta. cbn [fst snd]. rewrite (regenerateListFiles_fails o _ Hrender).
      split; [reflexivity|].
      destruct (regenerateListFiles_run o
                  (set_content STUD_FILE (stored STUD_FILE w ++ [newStudent P o b])%list
                     (ensured w))) as (_ & Hs & _).
      now rewrite (stored_same_content STUD_FILE _ _ Hs). }
    destruct Hrun as (Hnone' & Hstored). split; [exact Hnone'|].
    apply (student_register_collision P o2 b _ (newStudent P o b)); auto.
    + rewrite Hstored. apply in_or_app. right. now left.
    + unfold sameStudent. cbn [newStudent s_name s_grade s_section].
      now rewrite !String.eqb_refl.
Qed.

Lemma register_unanswered_then_refused_witness :
  store_ok (renderFailsOracle "id-3") /\ render_fails (renderFailsOracle "id-3")
  /\ no_faults (calmOracle "id-5")
  /\ snd (librarian_register demoPlatform (renderFailsOracle "id-3") registerCarol
            aliceWorld) = None
  /\ snd (librarian_register demoPlatform (calmOracle "id-5") registerCarol
            (fst (librarian_register demoPlatform (renderFailsOracle "id-3")
                    registerCarol aliceWorld)))
     = Some DuplicateLibrarian.
Proof.
  assert (Hr : render_fails (renderFailsOracle "id-3")) by (left; reflexivity).
  destruct (register_unanswered_then_refused demoPlatform (renderFailsOracle "id-3")
              (calmOracle "id-5") (renderFails_store_ok "id-3") Hr
              (calm_no_faults "id-5")) as (Hl & _).
  split; [apply renderFails_store_ok|]. split; [exact Hr|].
  split; [apply calm_no_faults|].
  apply (Hl registerCarol aliceWorld eq_refl).
  intros l [<-|[]]. vm_compute. discriminate.
Defined.

(** ** Fields in the cards *)

(** C7: every field a card shows is embedded escaped, as the text of an
    [h3] or [p] element.  Whatever text a field holds, [escapeHtml] turns it
    into text with no [<], [>] or double quote and with every [&] opening
    one of the references [&amp;] [&lt;] [&gt;] [&quot;], from which an HTML
    parser reads the original text back; a student card is its template
    around the escaped name, grade and section, a librarian card its
    template around the escaped full name (or username, when the full name
    is empty) and the escaped username; so the number of [<], [>] and double
    quotes in a card is the template's own, each card opens exactly one
    card element, and the number of [<], [>] and double quotes in a whole
    page depends on how many records it lists and on nothing they hold. *)
Theorem fields_escaped_where_embedded :
  (forall s : string,
     html_safe (escapeHtml s) = true /\ unescapeHtml (escapeHtml s) = s)
  /\ (forall s : Student,
        studentCard s
        = studentCardAround (escapeHtml (s_name s)) (escapeHtml (s_grade s))
            (escapeHtml (s_section s)))
  /\ (forall l : Librarian,
        librarianCard l
        = librarianCardAround (escapeHtml (or_else (l_fullname l) (l_username l)))
            (escapeHtml (l_username l)))
  /\ (forall (c : ascii) (s : Student) (l : Librarian),
        structural c = true ->
        count_char c (studentCard s) = count_char c (studentCardAround "" "" "")
        /\ count_char c (librarianCard l) = count_char c (librarianCardAround "" ""))
  /\ (forall (s : Student) (l : Librarian),
        countCards (studentCard s) = 1 /\ countCards (librarianCard l) = 1)
  /\ (forall (c : ascii) (now : string) (l l' : list Student) (m m' : list Librarian),
        structural c = true -> length l = length l' -> length m = length m' ->
        count_char c (studentsListPage now l) = count_char c (studentsListPage now l')
        /\ count_char c (librariansListPage now m)
           = count_char c (librariansListPage now m')).
Proof.
  split; [|split; [|split; [|split; [|split]]]].
  - intros s. split; [apply escapeHtml_is_safe|].
    rewrite escapeHtml_each. apply unescape_escapeEach.
  - reflexivity.
  - reflexivity.
  - intros c s l Hc. split.
    + unfold studentCard, studentCardAround.
      rewrite !count_char_app, !(count_char_escapeHtml c _ Hc). reflexivity.
    + unfold librarianCard, librarianCardAround.
      rewrite !count_char_app, !(count_char_escapeHtml c _ Hc). reflexivity.
  - intros s l. split.
    + rewrite <- (string_app_nil_r (studentCard s)).
      now rewrite countCards_studentCard.
    + rewrite <- (string_app_nil_r (librarianCard l)).
      now rewrite countCards_librarianCard.
  - intros c now l l' m m' Hc Hl Hm. split.
    + unfold studentsListPage, studentsListHtml, studentsCardsHtml.
      rewrite !count_char_app. f_equal. f_equal.
      destruct l as [|a l], l' as [|b l']; try discriminate; [reflexivity|].
      rewrite !(cards_truthy studentCard studentCard_truthy).
      apply count_char_join; [|exact Hl].
      intros x y. now apply count_char_studentCard.
    + unfold librariansListPage, librariansListHtml, librariansCardsHtml.
      rewrite !count_char_app. f_equal. f_equal.
      destruct m as [|a m], m' as [|b m']; try discriminate; [reflexivity|].
      rewrite !(cards_truthy librarianCard librarianCard_truthy).
      apply count_char_join; [|exact Hm].
      intros x y. now apply count_char_librarianCard.
Qed.
